(** * OCR service: validation, preprocessing, recognition and aggregation

    A shallow embedding of the backend of the OCR application:

    - [src/core/security.py]       the content-type and size gates,
    - [src/utils/image_processor.py] the preprocessing step,
    - [src/services/ocr_services.py] the service object ([OCRService]),
    - [src/models/schemas.py]      the response model ([OCRResponse]),
    - [src/api/routes.py]          the [predict] entry point.

    Python functions are embedded in a small monad that records the calls
    made to the collaborators (PIL, numpy, OpenCV, the EasyOCR reader, the
    logger) and carries the exception a call may raise.  The collaborators
    themselves are not part of the repository: they are the fields of the
    record [Externals], and every theorem holds for all of them. *)

From Stdlib Require Import ZArith NArith QArith Ascii String DecimalString.
From Stdlib.Strings Require Import Byte.
From stdpp Require Import base option list strings gmap.

Close Scope Q_scope.
Open Scope string_scope.
Open Scope list_scope.

(** ** Python strings

    A Python [str] is a sequence of Unicode code points. *)

Definition pystr := list N.

Definition py (s : string) : pystr :=
  map N_of_ascii (list_ascii_of_string s).

Definition space : N := 32%N.

(** [str.isspace] on one code point: the characters CPython lists in
    [_PyUnicode_IsWhitespace]. *)
Definition is_space (c : N) : bool :=
  ((9 <=? c) && (c <=? 13) || (28 <=? c) && (c <=? 32)
   || (c =? 133) || (c =? 160) || (c =? 5760)
   || (8192 <=? c) && (c <=? 8202)
   || (c =? 8232) || (c =? 8233) || (c =? 8239) || (c =? 8287)
   || (c =? 12288))%N.

Fixpoint drop_spaces (s : pystr) : pystr :=
  match s with
  | c :: s' => if is_space c then drop_spaces s' else s
  | [] => []
  end.

(** [s.lstrip()], [s.rstrip()] and [s.strip()] without argument. *)
Definition str_lstrip (s : pystr) : pystr := drop_spaces s.
Definition str_rstrip (s : pystr) : pystr := reverse (drop_spaces (reverse s)).
Definition str_strip (s : pystr) : pystr := str_rstrip (str_lstrip s).

(** [sep.join(items)]: the items are appended from left to right, the
    separator before every item but the first. *)
Definition str_join (sep : pystr) (items : list pystr) : pystr :=
  snd (fold_left
         (fun '(first, acc) item =>
            (false, if first : bool then acc ++ item else acc ++ sep ++ item))
         items (true, [])).

(** [str(n)] for a non-negative integer. *)
Definition str_of_nat (n : nat) : pystr :=
  py (NilEmpty.string_of_uint (Nat.to_uint n)).

(** ** Exceptions, outcomes and the call log *)

(** The exceptions the code distinguishes: FastAPI's [HTTPException], which
    [predict] re-raises untouched, and every other [Exception], of which the
    code only ever reads [str(e)]. *)
Inductive exn :=
| HTTPException (status_code : nat) (detail : pystr)
| Error (message : pystr).

(** [str(e)]; Starlette prints an [HTTPException] as "status: detail". *)
Definition exn_str (e : exn) : pystr :=
  match e with
  | HTTPException c d => str_of_nat c ++ py ": " ++ d
  | Error m => m
  end.

Inductive outcome (A : Type) :=
| Returns (a : A)
| Raises (e : exn).
Arguments Returns {A} a.
Arguments Raises {A} e.

Inductive loglevel := INFO | WARNING | ERROR.

Record ndarray := { shape : list nat; data : list N }.

Record pil_image := {
  format : option pystr;
  mode : pystr;
  size : nat * nat;
  raster : list N
}.

Inductive color_conversion := COLOR_RGB2GRAY | COLOR_RGB2BGR | COLOR_GRAY2BGR.

(** One entry per call that leaves the module under study. *)
Inductive event :=
| Log (level : loglevel) (msg : pystr)
| UploadRead
| ImageOpen (contents : list byte)
| ImageVerify
| ImageConvert
| NpArray
| CvtColor (code : color_conversion)
| MedianBlur
| ReaderInit
| ReadText (image : ndarray).

Definition M (A : Type) : Type := list event * outcome A.

Definition ret {A} (a : A) : M A := ([], Returns a).
Definition raise {A} (e : exn) : M A := ([], Raises e).
Definition call {A} (ev : event) (r : outcome A) : M A := ([ev], r).
Definition log (level : loglevel) (msg : pystr) : M unit :=
  ([Log level msg], Returns tt).

Definition bind {A B} (m : M A) (k : A -> M B) : M B :=
  match m with
  | (t, Returns a) => let '(t', r) := k a in (t ++ t', r)
  | (t, Raises e) => (t, Raises e)
  end.

(** [try: m  except Exception as e: handler e] *)
Definition try_except {A} (m : M A) (handler : exn -> M A) : M A :=
  match m with
  | (t, Returns a) => (t, Returns a)
  | (t, Raises e) => let '(t', r) := handler e in (t ++ t', r)
  end.

Notation "'let*' x := m 'in' k" := (bind m (fun x => k))
  (at level 10, x name, m at level 100, k at level 200).
Notation "m ;; k" := (bind m (fun _ => k))
  (at level 100, k at level 200, right associativity).

Definition trace {A} (m : M A) : list event := fst m.
Definition result {A} (m : M A) : outcome A := snd m.

(** The calls into the recognition engine found in a log. *)
Definition engine_calls (t : list event) : list ndarray :=
  omap (fun ev => match ev with ReadText i => Some i | _ => None end) t.

(** ** Python values and dictionaries *)

Inductive pyval (F : Type) :=
| VNone
| VBool (b : bool)
| VInt (z : Z)
| VFloat (f : F)
| VStr (s : pystr).
Arguments VNone {F}.
Arguments VBool {F} b.
Arguments VInt {F} z.
Arguments VFloat {F} f.
Arguments VStr {F} s.

(** [d.update(d')]: the keys of [d'] win. *)
Definition dict_update {F} (d d' : gmap string (pyval F)) : gmap string (pyval F) :=
  d' ∪ d.

(** One element of the list [reader.readtext] returns. *)
Record hit (F : Type) := {
  bbox : list (N * N);
  hit_text : pystr;
  hit_confidence : F
}.
Arguments bbox {F} h.
Arguments hit_text {F} h.
Arguments hit_confidence {F} h.

(** ** The collaborators

    Floating-point arithmetic, PIL, numpy, OpenCV and EasyOCR.  A call
    either returns or raises. *)
Record Externals := {
  float : Type;
  float_sum : list float -> float;
  float_div : float -> nat -> float;
  float_round : float -> nat -> float;
  float_of_int : Z -> float;
  Image_open : list byte -> outcome pil_image;
  Image_verify : pil_image -> outcome unit;
  Image_convert : pil_image -> pystr -> outcome pil_image;
  np_array : pil_image -> outcome ndarray;
  cv2_cvtColor : ndarray -> color_conversion -> outcome ndarray;
  cv2_medianBlur : ndarray -> nat -> outcome ndarray;
  easyocr_Reader :
    list pystr -> bool -> outcome (ndarray -> outcome (list (hit float)))
}.

(** ** [src/core/security.py] *)

Definition supported_types : list pystr :=
  [py "image/png"; py "image/jpeg"; py "image/jpg"].

(** [content_type in supported_types]; an upload without a content type
    carries [None], which is in no list of strings. *)
Definition validate_image_content_type (content_type : option pystr) : bool :=
  match content_type with
  | Some s => bool_decide (s ∈ supported_types)
  | None => false
  end.

Definition validate_file_size (content : list byte) (max_size_mb : Z) : bool :=
  let max_size := (max_size_mb * 1024 * 1024)%Z in
  (Z.of_nat (length content) <=? max_size)%Z.

(** ** [src/core/config.py] *)

Definition OCR_LANGUAGES : list pystr := [py "en"].
Definition OCR_GPU : bool := false.

(** ** [src/models/schemas.py] *)

Record OCRResponse (F : Type) := {
  success : bool;
  text : pystr;
  confidence : option F;
  word_count : option Z;
  error : option pystr;
  image_format : option pystr;
  image_size : option pystr
}.
Arguments success {F} o.
Arguments text {F} o.
Arguments confidence {F} o.
Arguments word_count {F} o.
Arguments error {F} o.
Arguments image_format {F} o.
Arguments image_size {F} o.

Section Service.

Context (X : Externals).

Abbreviation F := (float X).
Abbreviation dict := (gmap string (pyval F)).
Abbreviation Reader := (ndarray -> outcome (list (hit F))).

Definition validation_error {A} (field : string) : outcome A :=
  Raises (Error (py "validation error for OCRResponse: " ++ py field)).

(** Field validators of the response model.  A value of the field's type is
    kept, an [int] is accepted for a [float] field, [None] or a missing key
    gives the default of an [Optional] field; anything else is a validation
    error. *)
Definition required_bool (d : dict) (k : string) : outcome bool :=
  match d !! k with
  | Some (VBool b) => Returns b
  | _ => validation_error k
  end.

Definition required_str (d : dict) (k : string) : outcome pystr :=
  match d !! k with
  | Some (VStr s) => Returns s
  | _ => validation_error k
  end.

Definition optional_float (d : dict) (k : string) : outcome (option F) :=
  match d !! k with
  | None | Some VNone => Returns None
  | Some (VFloat f) => Returns (Some f)
  | Some (VInt z) => Returns (Some (float_of_int X z))
  | _ => validation_error k
  end.

Definition optional_int (d : dict) (k : string) : outcome (option Z) :=
  match d !! k with
  | None | Some VNone => Returns None
  | Some (VInt z) => Returns (Some z)
  | _ => validation_error k
  end.

Definition optional_str (d : dict) (k : string) : outcome (option pystr) :=
  match d !! k with
  | None | Some VNone => Returns None
  | Some (VStr s) => Returns (Some s)
  | _ => validation_error k
  end.

Definition lift {A} (r : outcome A) : M A := ([], r).

(** The constructor call of [OCRResponse] on the unpacked [result]. *)
Definition OCRResponse_init (d : dict) : M (OCRResponse F) :=
  let* s := lift (required_bool d "success") in
  let* t := lift (required_str d "text") in
  let* c := lift (optional_float d "confidence") in
  let* w := lift (optional_int d "word_count") in
  let* e := lift (optional_str d "error") in
  let* f := lift (optional_str d "image_format") in
  let* z := lift (optional_str d "image_size") in
  ret {| success := s; text := t; confidence := c; word_count := w;
         error := e; image_format := f; image_size := z |}.

(** ** [src/utils/image_processor.py] *)

(** [ImageProcessor.preprocess] *)
Definition preprocess (image : ndarray) : M ndarray :=
  try_except
    (let* gray :=
       (if decide (length (shape image) = 3)
        then call (CvtColor COLOR_RGB2GRAY) (cv2_cvtColor X image COLOR_RGB2GRAY)
        else ret image) in
     let* denoised := call MedianBlur (cv2_medianBlur X gray 3) in
     ret denoised)
    (fun e =>
       log WARNING (py "Image preprocessing failed: " ++ exn_str e);;
       ret image).

(** ** [src/services/ocr_services.py] *)

Record OCRService := { reader : option Reader }.

(** [OCRService.__init__] with [_initialize_ocr] *)
Definition _initialize_ocr : M OCRService :=
  try_except
    (let* r := call ReaderInit (easyocr_Reader X OCR_LANGUAGES OCR_GPU) in
     log INFO (py "EasyOCR initialized successfully");;
     ret {| reader := Some r |})
    (fun e =>
       log ERROR (py "Failed to initialize EasyOCR: " ++ exn_str e);;
       ret {| reader := None |}).

Definition is_healthy (self : OCRService) : bool :=
  match reader self with
  | Some _ => true
  | None => false
  end.

Definition validate_image (self : OCRService) (contents : list byte) : M bool :=
  try_except
    (let* image := call (ImageOpen contents) (Image_open X contents) in
     call ImageVerify (Image_verify X image);;
     ret true)
    (fun e =>
       log WARNING (py "Image validation failed: " ++ exn_str e);;
       ret false).

(** [self.reader.readtext(image)]; without a reader the attribute lookup on
    [None] raises. *)
Definition readtext (self : OCRService) (image : ndarray) : M (list (hit F)) :=
  match reader self with
  | Some r => call (ReadText image) (r image)
  | None =>
      raise (Error (py "'NoneType' object has no attribute 'readtext'"))
  end.

(** The loop over the engine's results: one [append] to each list per hit. *)
Definition collect (results : list (hit F)) : list pystr * list F :=
  fold_left
    (fun '(extracted_text, confidences) h =>
       (extracted_text ++ [hit_text h], confidences ++ [hit_confidence h]))
    results ([], []).

(** [round(avg_confidence, 3)], where [avg_confidence] is the [int] 0 when
    there is no confidence. *)
Definition rounded_average (confidences : list F) : pyval F :=
  match confidences with
  | [] => VInt 0
  | _ => VFloat (float_round X
                   (float_div X (float_sum X confidences) (length confidences))
                   3)
  end.

Definition failure (msg : pystr) : dict :=
  {[ "success" := VBool false; "text" := VStr []; "error" := VStr msg ]}.

Definition _extract_text (self : OCRService) (image : ndarray) : M dict :=
  try_except
    (let* image_bgr :=
       (if decide (length (shape image) = 3)
        then call (CvtColor COLOR_RGB2BGR) (cv2_cvtColor X image COLOR_RGB2BGR)
        else call (CvtColor COLOR_GRAY2BGR) (cv2_cvtColor X image COLOR_GRAY2BGR)) in
     let* results := readtext self image_bgr in
     let '(extracted_text, confidences) := collect results in
     let full_text := str_join (py " ") extracted_text in
     let avg_confidence := rounded_average confidences in
     ret ({[ "success" := VBool true;
             "text" := VStr (str_strip full_text);
             "confidence" := avg_confidence;
             "word_count" := VInt (Z.of_nat (length extracted_text));
             "error" := VNone ]} : dict))
    (fun e =>
       log ERROR (py "OCR extraction failed: " ++ exn_str e);;
       ret (failure (py "OCR processing failed: " ++ exn_str e))).

Definition opt_str (o : option pystr) : pyval F :=
  match o with
  | Some s => VStr s
  | None => VNone
  end.

Definition process_image (self : OCRService) (contents : list byte) : M dict :=
  if negb (is_healthy self) then
    ret (failure (py "OCR engine not available"))
  else
    try_except
      (let* pil_image := call (ImageOpen contents) (Image_open X contents) in
       let image_format := format pil_image in
       let image_size :=
         str_of_nat (fst (size pil_image)) ++ py "x"
         ++ str_of_nat (snd (size pil_image)) in
       let* pil_image :=
         (if decide (mode pil_image ≠ py "RGB")
          then call ImageConvert (Image_convert X pil_image (py "RGB"))
          else ret pil_image) in
       let* image_np := call NpArray (np_array X pil_image) in
       let* processed_image := preprocess image_np in
       let* result := _extract_text self processed_image in
       ret (dict_update result
              ({[ "image_format" := opt_str image_format;
                  "image_size" := VStr image_size ]} : dict)))
      (fun e =>
         log ERROR (py "Image processing failed: " ++ exn_str e);;
         ret (failure (py "Image processing failed: " ++ exn_str e))).

(** ** [src/api/routes.py] *)

(** The uploaded file: its declared content type and what [await
    image.read()] does. *)
Record UploadFile := {
  content_type : option pystr;
  read : outcome (list byte)
}.

Definition HTTP_400_BAD_REQUEST : nat := 400.
Definition HTTP_503_SERVICE_UNAVAILABLE : nat := 503.
Definition HTTP_500_INTERNAL_SERVER_ERROR : nat := 500.

Definition predict (ocr_service : OCRService) (image : UploadFile)
  : M (OCRResponse F) :=
  if negb (validate_image_content_type (content_type image)) then
    raise (HTTPException HTTP_400_BAD_REQUEST
             (py "File must be a supported image type (PNG, JPG, JPEG)"))
  else if negb (is_healthy ocr_service) then
    raise (HTTPException HTTP_503_SERVICE_UNAVAILABLE
             (py "OCR service temporarily unavailable"))
  else
    try_except
      (let* contents := call UploadRead (read image) in
       (if negb (validate_file_size contents 10)
        then raise (HTTPException HTTP_400_BAD_REQUEST
                      (py "File size too large. Maximum size is 10MB"))
        else ret tt);;
       let* valid := validate_image ocr_service contents in
       (if negb valid
        then raise (HTTPException HTTP_400_BAD_REQUEST (py "Invalid image file"))
        else ret tt);;
       let* result := process_image ocr_service contents in
       OCRResponse_init result)
      (fun e =>
         match e with
         | HTTPException _ _ => raise e
         | Error _ =>
             raise (HTTPException HTTP_500_INTERNAL_SERVER_ERROR
                      (py "Internal server error: " ++ exn_str e))
         end).

End Service.

Arguments reader {X} o.
Arguments is_healthy {X} self.

(** ** The steps of the pipeline, as functions of the collaborators' answers

    These name, for the statements below, the values the code computes on
    its way. *)

(** A computation that, when it returns, returns a value with [P]. *)
Definition returns_with {A} (P : A → Prop) (r : outcome A) : Prop :=
  match r with
  | Returns a => P a
  | Raises _ => True
  end.

(** The conversion [_extract_text] asks OpenCV for. *)
Definition bgr_code (image : ndarray) : color_conversion :=
  if decide (length (shape image) = 3) then COLOR_RGB2BGR else COLOR_GRAY2BGR.

Section Steps.

Context (X : Externals).

Abbreviation dict := (gmap string (pyval (float X))).

(** The grayscale step of [preprocess]: a conversion for a colour image,
    nothing for a single-channel one. *)
Definition grayscale (image : ndarray) : outcome ndarray :=
  if decide (length (shape image) = 3)
  then cv2_cvtColor X image COLOR_RGB2GRAY
  else Returns image.

(** The image [preprocess] hands on. *)
Definition preprocessed (image : ndarray) : ndarray :=
  match grayscale image with
  | Returns gray =>
      match cv2_medianBlur X gray 3 with
      | Returns denoised => denoised
      | Raises _ => image
      end
  | Raises _ => image
  end.

(** The conversion to RGB in [process_image]. *)
Definition to_rgb (img : pil_image) : outcome pil_image :=
  if decide (mode img ≠ py "RGB")
  then Image_convert X img (py "RGB")
  else Returns img.

(** The structural check of [validate_image], as a function of what PIL
    answers. *)
Definition image_verified (contents : list byte) : bool :=
  match Image_open X contents with
  | Returns image =>
      match Image_verify X image with
      | Returns _ => true
      | Raises _ => false
      end
  | Raises _ => false
  end.

(** What [_extract_text] returns when the conversion and the engine return. *)
Definition aggregated (hits : list (hit (float X))) : dict :=
  {[ "success" := VBool true;
     "text" := VStr (str_strip (str_join (py " ") (map hit_text hits)));
     "confidence" := rounded_average X (map hit_confidence hits);
     "word_count" := VInt (Z.of_nat (length hits));
     "error" := VNone ]}.

(** The dictionaries [process_image] can return: a failure, or what
    [_extract_text] returned, updated with the format and the size of the
    image. *)
Definition extracted (d : dict) : Prop :=
  (∃ hits, d = aggregated hits) ∨ (∃ msg, d = failure X msg).

Definition processed (d : dict) : Prop :=
  (∃ msg, d = failure X msg)
  ∨ (∃ d0 fmt sz, extracted d0
       ∧ d = dict_update d0 {[ "image_format" := opt_str X fmt;
                               "image_size" := VStr sz ]}).

End Steps.

Arguments extracted {X} d.
Arguments processed {X} d.

(** ** The statements of the specification *)

(** The supported set the specification names, [{png, jpeg}], as declared
    content types. *)
Definition spec_supported_types : list pystr :=
  [py "image/png"; py "image/jpeg"].

(** "Concatenates each hit's text in engine-emission order with a single
    space separator." *)
Fixpoint spec_concat_spaced (texts : list pystr) : pystr :=
  match texts with
  | [] => []
  | t :: ts =>
      match ts with
      | [] => t
      | _ => t ++ [space] ++ spec_concat_spaced ts
      end
  end.

(** "[t] is [s] with leading and trailing whitespace trimmed": [t] lies in
    [s] between two runs of whitespace and neither starts nor ends with
    whitespace. *)
Definition spec_trimmed (s t : pystr) : Prop :=
  ∃ l r, s = l ++ t ++ r
         ∧ Forall (fun c => is_space c = true) l
         ∧ Forall (fun c => is_space c = true) r
         ∧ (∀ c, head t = Some c → is_space c = false)
         ∧ (∀ c, last t = Some c → is_space c = false).

(** The invariant of an extraction result, on the dictionary the service
    returns: [error] is absent when the key is missing or holds [None]. *)
Definition error_absent {F} (d : gmap string (pyval F)) : Prop :=
  d !! "error" = None ∨ d !! "error" = Some VNone.

Definition error_present {F} (d : gmap string (pyval F)) : Prop :=
  ∃ msg, d !! "error" = Some (VStr msg).

Definition result_invariant {F} (d : gmap string (pyval F)) : Prop :=
  (∃ b, d !! "success" = Some (VBool b))
  ∧ (d !! "success" = Some (VBool true) ↔ error_absent d)
  ∧ (d !! "success" = Some (VBool false) →
     d !! "text" = Some (VStr []) ∧ error_present d).

(** The same invariant on the response model. *)
Definition response_invariant {F} (o : OCRResponse F) : Prop :=
  (success o = true ↔ error o = None)
  ∧ (success o = false → text o = [] ∧ error o ≠ None).

(** A response with the status code of "service unavailable". *)
Definition is_service_unavailable {A} (r : outcome A) : Prop :=
  match r with
  | Raises (HTTPException 503 _) => True
  | _ => False
  end.

(** ** A concrete set of collaborators

    Exact rational arithmetic stands in for the floating-point operations,
    a decoder that looks at the magic number for PIL, and a reader that
    finds two words on every image for the engine.  The definitions of the
    service run on it. *)
Module Sample.

Definition bytes_of (s : string) : list byte :=
  map byte_of_ascii (list_ascii_of_string s).

Definition has_prefix (p bs : list byte) : bool :=
  bool_decide (take (length p) (map Byte.to_N bs) = map Byte.to_N p).

Definition png_magic : list byte := [x89; x50; x4e; x47; x0d; x0a; x1a; x0a].
Definition jpeg_magic : list byte := [xff; xd8; xff].
Definition gif_magic : list byte := bytes_of "GIF89a".

Definition decoded (fmt md : string) : pil_image :=
  {| format := Some (py fmt); mode := py md; size := (2, 1);
     raster := [255; 255; 255; 0; 0; 0]%N |}.

Definition open (bs : list byte) : outcome pil_image :=
  if has_prefix png_magic bs then Returns (decoded "PNG" "RGB")
  else if has_prefix jpeg_magic bs then Returns (decoded "JPEG" "RGB")
  else if has_prefix gif_magic bs then Returns (decoded "GIF" "P")
  else Raises (Error (py "cannot identify image file")).

Definition convert (img : pil_image) (md : pystr) : outcome pil_image :=
  Returns {| format := None; mode := md; size := size img;
             raster := raster img |}.

Definition array (img : pil_image) : outcome ndarray :=
  Returns {| shape := [snd (size img); fst (size img); 3];
             data := raster img |}.

Definition cvtColor (a : ndarray) (code : color_conversion) : outcome ndarray :=
  match code, shape a with
  | COLOR_RGB2GRAY, [h; w; 3] => Returns {| shape := [h; w]; data := data a |}
  | COLOR_RGB2BGR, [h; w; 3] => Returns a
  | COLOR_GRAY2BGR, [h; w] => Returns {| shape := [h; w; 3]; data := data a |}
  | _, _ => Raises (Error (py "cv2.error: invalid number of channels"))
  end.

Definition medianBlur (a : ndarray) (ksize : nat) : outcome ndarray :=
  Returns a.

Definition round_half_even (x : Q) : Z :=
  let n := Qnum x in
  let d := Zpos (Qden x) in
  let q := (n / d)%Z in
  let r := (2 * (n mod d))%Z in
  if (r <? d)%Z then q
  else if (d <? r)%Z then (q + 1)%Z
  else if Z.even q then q else (q + 1)%Z.

Definition round_digits (x : Q) (ndigits : nat) : Q :=
  let s := (10 ^ Z.of_nat ndigits)%Z in
  Qred (Qmake (round_half_even (Qmult x (inject_Z s))) (Z.to_pos s)).

Definition two_words : list (hit Q) :=
  [ {| bbox := [(0, 0); (1, 0); (1, 1); (0, 1)]%N; hit_text := py "HELLO";
       hit_confidence := Qmake 9 10 |};
    {| bbox := [(1, 0); (2, 0); (2, 1); (1, 1)]%N; hit_text := py "WORLD";
       hit_confidence := Qmake 8 10 |} ].

Definition engine (a : ndarray) : outcome (list (hit Q)) := Returns two_words.

Definition blind_engine (a : ndarray) : outcome (list (hit Q)) := Returns [].

Definition externals : Externals :=
  {| float := Q;
     float_sum := fun l => fold_left Qplus l (inject_Z 0);
     float_div := fun x n => Qred (Qdiv x (inject_Z (Z.of_nat n)));
     float_round := round_digits;
     float_of_int := inject_Z;
     Image_open := open;
     Image_verify := fun _ => Returns tt;
     Image_convert := convert;
     np_array := array;
     cv2_cvtColor := cvtColor;
     cv2_medianBlur := medianBlur;
     easyocr_Reader := fun _ _ => Returns engine |}.

Definition ready : OCRService externals :=
  Build_OCRService externals (Some engine).
Definition ready_blind : OCRService externals :=
  Build_OCRService externals (Some blind_engine).
Definition unavailable : OCRService externals :=
  Build_OCRService externals None.

Definition gif_bytes : list byte := gif_magic ++ [x01; x00; x01; x00].

Definition upload (ct : string) (bs : list byte) : UploadFile :=
  {| content_type := Some (py ct); read := Returns bs |}.

Definition broken_upload (ct : string) (msg : string) : UploadFile :=
  {| content_type := Some (py ct); read := Raises (Error (py msg)) |}.

Definition gray : ndarray := {| shape := [1; 2]; data := [255; 0]%N |}.

End Sample.

(** ** The rest of the code

    The other endpoints of [src/api/routes.py], the contrast enhancement of
    [src/utils/image_processor.py] and the two helpers of
    [src/frontend/app.py]. *)

(** [HealthCheck] of [src/models/schemas.py]. *)
Record HealthCheck := {
  status : option pystr;
  ocr_engine : option pystr;
  version : option pystr
}.

Section Endpoints.

Context (X : Externals).

Abbreviation dict := (gmap string (pyval (float X))).

Definition health_status (ocr_service : OCRService X) : pystr :=
  if is_healthy ocr_service then py "healthy" else py "unhealthy".

(** [GET /health] *)
Definition health_check (ocr_service : OCRService X) : HealthCheck :=
  {| status := Some (health_status ocr_service);
     ocr_engine := Some (py "EasyOCR");
     version := Some (py "1.0.0") |}.

(** [GET /] *)
Definition root (ocr_service : OCRService X) : dict :=
  {[ "message" := VStr (py "OCR API is running");
     "status" := VStr (health_status ocr_service);
     "version" := VStr (py "1.0.0");
     "docs" := VStr (py "/docs") ]}.

(** The decoding steps of [process_image]: open, convert to RGB, turn into
    an array.  The image PIL opened is kept for its format and size. *)
Definition decode (contents : list byte) : outcome (pil_image * ndarray) :=
  match Image_open X contents with
  | Returns img =>
      match to_rgb X img with
      | Returns img' =>
          match np_array X img' with
          | Returns a => Returns (img, a)
          | Raises e => Raises e
          end
      | Raises e => Raises e
      end
  | Raises e => Raises e
  end.

(** The dictionary [process_image] updates the result with. *)
Definition metadata (img : pil_image) : dict :=
  {[ "image_format" := opt_str X (format img);
     "image_size" := VStr (str_of_nat (fst (size img)) ++ py "x"
                           ++ str_of_nat (snd (size img))) ]}.

(** The confidence of a successful response. *)
Definition response_confidence (hits : list (hit (float X))) : float X :=
  match hits with
  | [] => float_of_int X 0
  | _ => float_round X
           (float_div X (float_sum X (map hit_confidence hits)) (length hits))
           3
  end.

(** The shapes of a response built from a result of [process_image]. *)
Definition success_response (o : OCRResponse (float X)) : Prop :=
  ∃ hits, success o = true
          ∧ text o = str_strip (str_join (py " ") (map hit_text hits))
          ∧ confidence o = Some (response_confidence hits)
          ∧ word_count o = Some (Z.of_nat (length hits))
          ∧ error o = None
          ∧ is_Some (image_size o).

Definition failure_response (o : OCRResponse (float X)) : Prop :=
  success o = false ∧ text o = [] ∧ confidence o = None
  ∧ word_count o = None ∧ is_Some (error o).

End Endpoints.

Arguments success_response {X} o.
Arguments failure_response {X} o.

(** The payloads handed to [Image.open] in a log. *)
Definition opened (t : list event) : list (list byte) :=
  omap (fun ev => match ev with ImageOpen c => Some c | _ => None end) t.

(** [ImageProcessor.enhance_contrast], over OpenCV's CLAHE object. *)
Section Contrast.

Context (CLAHE : Type).
Context (cv2_createCLAHE : Q → nat * nat → outcome CLAHE).
Context (CLAHE_apply : CLAHE → ndarray → outcome ndarray).

Definition enhance_contrast (image : ndarray) : M ndarray :=
  try_except
    (let* clahe := lift (cv2_createCLAHE (Qmake 2 1) (8, 8)) in
     let* enhanced := lift (CLAHE_apply clahe image) in
     ret enhanced)
    (fun e =>
       log WARNING (py "Contrast enhancement failed: " ++ exn_str e);;
       ret image).

End Contrast.

(** [src/frontend/app.py]: the helpers that talk to the backend.  A response
    of [requests] has a status code and a body that [json()] decodes or
    fails to decode. *)
Section Frontend.

Context (J : Type).

Record Response := {
  status_code : nat;
  json : outcome J
}.

Context (requests_get : pystr → nat → outcome Response).

(** [os.getenv('BACKEND_URL', default)] on an environment. *)
Definition get_backend_url (environ : gmap string pystr) : pystr :=
  default (py "http://localhost:8000/api/v1") (environ !! "BACKEND_URL").

Definition test_backend_connection (backend_url : pystr)
  : M (bool * option J) :=
  try_except
    (let* response := lift (requests_get (backend_url ++ py "/health") 5) in
     let connected := bool_decide (status_code response = 200) in
     let* data :=
       (if bool_decide (status_code response = 200)
        then let* j := lift (json response) in ret (Some j)
        else ret None) in
     ret (connected, data))
    (fun _ => ret (false, None)).

End Frontend.

Arguments status_code {J} r.
Arguments json {J} r.

(** More collaborators to run the code on: an engine that fails, a decoder
    whose conversion fails, a payload over the size limit, a backend. *)
Module Faulty.

Definition failing_engine (a : ndarray) : outcome (list (hit Q)) :=
  Raises (Error (py "CUDA error: out of memory")).

Definition ready_failing : OCRService Sample.externals :=
  Build_OCRService Sample.externals (Some failing_engine).

Definition no_convert : Externals :=
  {| float := Q;
     float_sum := float_sum Sample.externals;
     float_div := float_div Sample.externals;
     float_round := float_round Sample.externals;
     float_of_int := float_of_int Sample.externals;
     Image_open := Sample.open;
     Image_verify := fun _ => Returns tt;
     Image_convert := fun _ _ => Raises (Error (py "cannot convert image"));
     np_array := Sample.array;
     cv2_cvtColor := Sample.cvtColor;
     cv2_medianBlur := Sample.medianBlur;
     easyocr_Reader := fun _ _ => Raises (Error (py "model not found")) |}.

Definition no_convert_ready : OCRService no_convert :=
  Build_OCRService no_convert (Some Sample.engine).

Definition no_blur : Externals :=
  {| float := Q;
     float_sum := float_sum Sample.externals;
     float_div := float_div Sample.externals;
     float_round := float_round Sample.externals;
     float_of_int := float_of_int Sample.externals;
     Image_open := Sample.open;
     Image_verify := fun _ => Returns tt;
     Image_convert := Sample.convert;
     np_array := Sample.array;
     cv2_cvtColor := Sample.cvtColor;
     cv2_medianBlur := fun _ _ => Raises (Error (py "cv2.error: bad depth"));
     easyocr_Reader := fun _ _ => Returns Sample.engine |}.

Definition no_blur_ready : OCRService no_blur :=
  Build_OCRService no_blur (Some Sample.engine).

Definition oversized : list byte := replicate (Z.to_nat 10485761) x00.

Definition png_bytes : list byte := Sample.png_magic ++ [x00].

Definition backend (url : pystr) (timeout : nat) : outcome (Response nat) :=
  if bool_decide (url = py "http://localhost:8000/api/v1/health")
  then Returns {| status_code := 200; json := Returns 1 |}
  else Raises (Error (py "Connection refused")).

Definition hello_response : OCRResponse Q :=
  {| success := true; text := py "HELLO WORLD";
     confidence := Some (Qmake 17 20); word_count := Some 2%Z; error := None;
     image_format := Some (py "GIF"); image_size := Some (py "2x1") |}.

Definition failed_response : OCRResponse Q :=
  {| success := false; text := []; confidence := None; word_count := None;
     error := Some (py "OCR processing failed: CUDA error: out of memory");
     image_format := Some (py "PNG"); image_size := Some (py "2x1") |}.

End Faulty.

(** * Properties *)

(** ** Strings *)

Example str_strip_ex : str_strip (py "  a b ") = py "a b".
Proof. reflexivity. Qed.
Example str_join_ex : str_join (py " ") [py "a"; py "b"; py "c"] = py "a b c".
Proof. reflexivity. Qed.
Example str_of_nat_ex : str_of_nat 100 = py "100" ∧ str_of_nat 0 = py "0".
Proof. split; reflexivity. Qed.

Lemma drop_spaces_split (s : pystr) :
  ∃ l, s = l ++ drop_spaces s
       ∧ Forall (fun c => is_space c = true) l
       ∧ (∀ c, head (drop_spaces s) = Some c → is_space c = false).
Proof.
  induction s as [|c s (l & Hs & Hl & Hh)]; simpl.
  - exists []. split_and!; [done | constructor | intros c Hc; discriminate].
  - destruct (is_space c) eqn:Hc.
    + exists (c :: l). split_and!; [by rewrite Hs at 1 | by constructor | done].
    + exists []. split_and!; [done | constructor |].
      intros c' [= <-]. done.
Qed.

Lemma str_rstrip_split (s : pystr) :
  ∃ r, s = str_rstrip s ++ r
       ∧ Forall (fun c => is_space c = true) r
       ∧ (∀ c, last (str_rstrip s) = Some c → is_space c = false).
Proof.
  unfold str_rstrip.
  destruct (drop_spaces_split (reverse s)) as (l & Hs & Hl & Hh).
  exists (reverse l). split_and!.
  - rewrite <- reverse_app, <- Hs. by rewrite reverse_involutive.
  - by apply Forall_reverse.
  - intros c. rewrite last_reverse. apply Hh.
Qed.

Lemma str_strip_trimmed (s : pystr) : spec_trimmed s (str_strip s).
Proof.
  unfold str_strip, str_lstrip.
  destruct (drop_spaces_split s) as (l & Hs & Hl & Hh).
  destruct (str_rstrip_split (drop_spaces s)) as (r & Hr & Hr' & Hlast).
  exists l, r. split_and!; try done.
  - by rewrite <- Hr.
  - intros c Hc. apply Hh. rewrite Hr.
    rewrite head_app, Hc. done.
Qed.

(** What is trimmed off a string is determined by the string. *)
Lemma spec_trimmed_unique (s t1 t2 : pystr) :
  spec_trimmed s t1 → spec_trimmed s t2 → t1 = t2.
Proof.
  assert (Hpre : ∀ (l1 l2 u1 u2 : pystr),
             l1 ++ u1 = l2 ++ u2 →
             Forall (fun c => is_space c = true) l1 →
             Forall (fun c => is_space c = true) l2 →
             (∀ c, head u1 = Some c → is_space c = false) →
             (∀ c, head u2 = Some c → is_space c = false) →
             u1 ≠ [] → l1 = l2 ∧ u1 = u2 ∨ (u2 = [] ∧ False) ∨
             (∃ c, c ∈ l2 ∧ is_space c = false)).
  { induction l1 as [|a l1 IH]; intros l2 u1 u2 E H1 H2 Hu1 Hu2 Hne.
    - destruct l2 as [|b l2]; simpl in E.
      + left. done.
      + right. right. exists b. split; [left |].
        destruct u1 as [|c u1]; [done |]. injection E as -> _.
        by apply Hu1.
    - destruct l2 as [|b l2]; simpl in E.
      + destruct u2 as [|c u2]; [discriminate |]. injection E as <- _.
        apply Forall_cons in H1 as [Ha _].
        rewrite (Hu2 a eq_refl) in Ha. discriminate.
      + injection E as <- E.
        apply Forall_cons in H1 as [_ H1]. apply Forall_cons in H2 as [_ H2].
        destruct (IH l2 u1 u2 E H1 H2 Hu1 Hu2 Hne) as [[-> ->]|[[_ []]|(c & Hc & Hs)]].
        * by left.
        * right. right. exists c. split; [by right | done]. }
  assert (Hsp : ∀ (l : pystr) c,
             Forall (fun c => is_space c = true) l → c ∈ l → is_space c = false → False).
  { intros l c Hl Hc Hs. rewrite Forall_forall in Hl. rewrite (Hl c Hc) in Hs.
    discriminate. }
  assert (Hall : ∀ (l t r : pystr),
             Forall (fun c => is_space c = true) (l ++ t ++ r) →
             (∀ c, head t = Some c → is_space c = false) → t = []).
  { intros l t r Hf Hh. destruct t as [|c t]; [done |].
    apply Forall_app in Hf as [_ Hf]. apply Forall_app in Hf as [Hf _].
    apply Forall_cons in Hf as [Hc _]. rewrite (Hh c eq_refl) in Hc.
    discriminate. }
  intros (l1 & r1 & E1 & Hl1 & Hr1 & Hh1 & Hz1) (l2 & r2 & E2 & Hl2 & Hr2 & Hh2 & Hz2).
  destruct (decide (t1 = [])) as [->|Hne1].
  - symmetry. apply (Hall l2 t2 r2); [| done]. rewrite <- E2, E1.
    simpl. by apply Forall_app.
  - destruct (decide (t2 = [])) as [->|Hne2].
    + apply (Hall l1 t1 r1); [| done]. rewrite <- E1, E2.
      simpl. by apply Forall_app.
    + (* both non-empty: the prefixes agree, then so do the suffixes *)
      assert (Hhd : ∀ (t r : pystr) c, t ≠ [] → head (t ++ r) = Some c → head t = Some c).
      { intros t r c Ht. destruct t; [done | simpl; done]. }
      destruct (Hpre l1 l2 (t1 ++ r1) (t2 ++ r2)) as [[-> E]|[[E _]|(c & Hc & Hs)]];
        try done.
      * congruence.
      * intros c Hc. apply Hh1. by apply (Hhd t1 r1).
      * intros c Hc. apply Hh2. by apply (Hhd t2 r2).
      * intros E. apply app_eq_nil in E as [? _]. done.
      * assert (Hrev : reverse r1 ++ reverse t1 = reverse r2 ++ reverse t2).
        { rewrite <- !reverse_app. by rewrite E. }
        destruct (Hpre (reverse r1) (reverse r2) (reverse t1) (reverse t2))
          as [[_ E']|[[E' _]|(c & Hc & Hs)]]; try done.
        -- by apply Forall_reverse.
        -- by apply Forall_reverse.
        -- intros c. rewrite head_reverse. apply Hz1.
        -- intros c. rewrite head_reverse. apply Hz2.
        -- intros E'. apply (f_equal reverse) in E'.
           rewrite reverse_involutive in E'. done.
        -- apply (f_equal reverse) in E'. by rewrite !reverse_involutive in E'.
        -- apply (f_equal reverse) in E'. rewrite reverse_involutive in E'. done.
        -- exfalso. apply (Hsp r2 c); [done | | done].
           by rewrite <- elem_of_reverse.
      * apply app_eq_nil in E as [? _]. done.
      * exfalso. by apply (Hsp l2 c).
Qed.

Lemma str_join_cons (sep item : pystr) (items : list pystr) :
  str_join sep (item :: items)
  = item ++ concat (map (fun i => sep ++ i) items).
Proof.
  unfold str_join. simpl. revert item.
  induction items as [|i items IH]; intros acc; simpl.
  - by rewrite app_nil_r.
  - rewrite IH. by rewrite <- !app_assoc.
Qed.

Lemma spec_concat_spaced_cons (t : pystr) (ts : list pystr) :
  spec_concat_spaced (t :: ts)
  = t ++ concat (map (fun i => [space] ++ i) ts).
Proof.
  revert t. induction ts as [|u ts IH]; intros t.
  - simpl. by rewrite app_nil_r.
  - change (spec_concat_spaced (t :: u :: ts))
      with (t ++ [space] ++ spec_concat_spaced (u :: ts)).
    rewrite IH. simpl. done.
Qed.

(** [" ".join] is the concatenation with single spaces of the
    specification. *)
Lemma str_join_space (items : list pystr) :
  str_join (py " ") items = spec_concat_spaced items.
Proof.
  destruct items as [|t ts]; [done |].
  by rewrite str_join_cons, spec_concat_spaced_cons.
Qed.

Section Aggregation.

Context (X : Externals).

(** The loop keeps every hit, in the order of the engine. *)
Lemma collect_map (results : list (hit (float X))) :
  collect X results = (map hit_text results, map hit_confidence results).
Proof.
  unfold collect.
  enough (Hacc : ∀ (ts : list pystr) (cs : list (float X)),
             fold_left
               (fun '(extracted_text, confidences) h =>
                  (extracted_text ++ [hit_text h],
                   confidences ++ [hit_confidence h]))
               results (ts, cs)
             = (ts ++ map hit_text results, cs ++ map hit_confidence results))
    by apply (Hacc [] []).
  induction results as [|h results IH]; intros ts cs; simpl.
  - by rewrite !app_nil_r.
  - rewrite IH. by rewrite <- !app_assoc.
Qed.

Lemma extract_text_hits (self : OCRService X) (image bgr : ndarray) r hits :
  reader self = Some r →
  cv2_cvtColor X image (bgr_code image) = Returns bgr →
  r bgr = Returns hits →
  _extract_text X self image
  = ([CvtColor (bgr_code image); ReadText bgr], Returns (aggregated X hits)).
Proof.
  intros Hr Hc Hh. unfold _extract_text, readtext, bgr_code in *.
  rewrite Hr.
  destruct (decide (length (shape image) = 3)); unfold call, bind, try_except;
    rewrite Hc; simpl; rewrite Hh; rewrite collect_map; simpl;
    unfold aggregated; by rewrite length_map.
Qed.

(** [_extract_text] never raises, and returns either the aggregate of the
    hits of the engine or a failure. *)
Lemma extract_text_returns (self : OCRService X) (image : ndarray) :
  ∃ t d, _extract_text X self image = (t, Returns d)
         ∧ ((∃ hits, d = aggregated X hits) ∨ (∃ msg, d = failure X msg)).
Proof.
  unfold _extract_text, readtext.
  destruct (decide (length (shape image) = 3));
    unfold call, bind, try_except, log, ret, raise;
    (destruct (cv2_cvtColor X image _) as [bgr|e1]; simpl;
     [ destruct (reader self) as [r|]; simpl;
       [ destruct (r bgr) as [hits|e2]; simpl | ] | ]);
    try (rewrite collect_map; simpl; do 2 eexists; split; [reflexivity |];
         left; exists hits; unfold aggregated; by rewrite length_map);
    do 2 eexists; (split; [reflexivity |]); right; eexists; reflexivity.
Qed.

End Aggregation.

(** ** The monad *)

Lemma result_bind {A B} (m : M A) (k : A → M B) :
  result (bind m k)
  = match result m with
    | Returns a => result (k a)
    | Raises e => Raises e
    end.
Proof. destruct m as [t [a|e]]; simpl; [by destruct (k a) | done]. Qed.

Lemma result_try_except {A} (m : M A) (h : exn → M A) :
  result (try_except m h)
  = match result m with
    | Returns a => Returns a
    | Raises e => result (h e)
    end.
Proof. destruct m as [t [a|e]]; simpl; [done | by destruct (h e)]. Qed.

Lemma trace_bind {A B} (m : M A) (k : A → M B) :
  trace (bind m k)
  = match result m with
    | Returns a => trace m ++ trace (k a)
    | Raises e => trace m
    end.
Proof. destruct m as [t [a|e]]; simpl; [by destruct (k a) | done]. Qed.

Lemma trace_try_except {A} (m : M A) (h : exn → M A) :
  trace (try_except m h)
  = match result m with
    | Returns a => trace m
    | Raises e => trace m ++ trace (h e)
    end.
Proof. destruct m as [t [a|e]]; simpl; [done | by destruct (h e)]. Qed.

Lemma returns_with_bind {A B} (P : B → Prop) (m : M A) (k : A → M B) :
  (∀ a, result m = Returns a → returns_with P (result (k a))) →
  returns_with P (result (bind m k)).
Proof.
  intros H. rewrite result_bind.
  destruct (result m) as [a|e]; [by apply H | done].
Qed.

Lemma engine_calls_app (t1 t2 : list event) :
  engine_calls (t1 ++ t2) = engine_calls t1 ++ engine_calls t2.
Proof. unfold engine_calls. apply omap_app. Qed.

(** ** Preprocessing *)

Section Preprocessing.

Context (X : Externals).

Lemma preprocess_result (image : ndarray) :
  result (preprocess X image)
  = Returns match grayscale X image with
            | Returns gray =>
                match cv2_medianBlur X gray 3 with
                | Returns denoised => denoised
                | Raises _ => image
                end
            | Raises _ => image
            end.
Proof.
  unfold preprocess, grayscale, call, log, ret, bind, try_except, result.
  destruct (decide (length (shape image) = 3)) as [Hd|Hd]; simpl.
  - destruct (cv2_cvtColor X image COLOR_RGB2GRAY) as [gray|e]; simpl; [| done].
    by destruct (cv2_medianBlur X gray 3).
  - by destruct (cv2_medianBlur X image 3).
Qed.

(** Preprocessing does not reach the engine. *)
Lemma preprocess_engine_calls (image : ndarray) :
  engine_calls (trace (preprocess X image)) = [].
Proof.
  unfold preprocess, call, log, ret, bind, try_except.
  destruct (decide (length (shape image) = 3)) as [Hd|Hd]; simpl.
  - destruct (cv2_cvtColor X image COLOR_RGB2GRAY) as [gray|e]; simpl; [| done].
    by destruct (cv2_medianBlur X gray 3).
  - by destruct (cv2_medianBlur X image 3).
Qed.

End Preprocessing.

(** ** The service *)

Section Pipeline.

Context (X : Externals).

Abbreviation dict := (gmap string (pyval (float X))).

Lemma process_image_returns (self : OCRService X) (contents : list byte) :
  ∃ d, result (process_image X self contents) = Returns d ∧ processed d.
Proof.
  unfold process_image.
  destruct (is_healthy self); cbn [negb];
    [| eexists; split; [reflexivity | left; eauto]].
  rewrite result_try_except.
  match goal with
  | |- context [result ?body] =>
      assert (Hbody : returns_with processed (result body))
  end.
  { apply returns_with_bind. intros img _.
    apply returns_with_bind. intros img' _.
    apply returns_with_bind. intros a _.
    apply returns_with_bind. intros out _.
    apply returns_with_bind. intros d0 Hd0.
    destruct (extract_text_returns X self out) as (t & d & He & Hd).
    rewrite He in Hd0. injection Hd0 as ->.
    right. exists d0, (format img). eexists. split; [exact Hd | reflexivity]. }
  match goal with
  | |- context [result ?body] => destruct (result body) as [d|e]
  end.
  - exists d. split; [reflexivity | exact Hbody].
  - rewrite result_bind. cbn. eexists. split; [reflexivity | left; eauto].
Qed.

Lemma failure_invariant (msg : pystr) : result_invariant (failure X msg).
Proof.
  split_and!.
  - by exists false.
  - split; [intros [=] | intros [[=]|[=]]].
  - intros _. split; [done | by exists msg].
Qed.

Lemma aggregated_invariant (hits : list (hit (float X))) :
  result_invariant (aggregated X hits).
Proof.
  split_and!.
  - by exists true.
  - split; [intros _; by right | done].
  - intros [=].
Qed.

Lemma extracted_lookup_metadata (d : dict) (k : string) :
  extracted d → k = "image_format" ∨ k = "image_size" → d !! k = None.
Proof. intros [[hits ->]|[msg ->]] [->| ->]; reflexivity. Qed.

(** The update with the metadata leaves the other keys alone. *)
Lemma dict_update_other (d meta : dict) (k : string) :
  meta !! k = None → dict_update d meta !! k = d !! k.
Proof.
  intros Hk. unfold dict_update. rewrite lookup_union_r; done.
Qed.

Lemma processed_invariant (d : dict) : processed d → result_invariant d.
Proof.
  intros [[msg ->]|(d0 & fmt & sz & Hd0 & ->)].
  - apply failure_invariant.
  - assert (Hinv : result_invariant d0)
      by (destruct Hd0 as [[hits ->]|[msg ->]];
          [apply aggregated_invariant | apply failure_invariant]).
    unfold result_invariant, error_absent, error_present in *.
    rewrite !dict_update_other by reflexivity. exact Hinv.
Qed.

(** The response model accepts every dictionary [process_image] returns. *)
Lemma response_of_processed (d : dict) :
  processed d →
  ∃ o, OCRResponse_init X d = ([], Returns o) ∧ response_invariant o.
Proof.
  intros [[msg ->]|(d0 & fmt & sz & [[hits ->]|[msg ->]] & ->)].
  - eexists. split; [reflexivity |].
    split; [split; intros [=] | intros _; split; [reflexivity | intros [=]]].
  - destruct fmt as [fmt|];
      (destruct (map hit_confidence hits) as [|c cs] eqn:Hcs;
       [ destruct hits; [| discriminate]
       | unfold OCRResponse_init, required_bool, required_str, optional_float,
           optional_int, optional_str, aggregated; rewrite Hcs ]);
      (eexists; split; [reflexivity |]);
      (split; [split; intros _; reflexivity | intros [=]]).
  - destruct fmt as [fmt|];
      (eexists; split; [reflexivity |]);
      (split; [split; intros [=] | intros _; split; [reflexivity | intros [=]]]).
Qed.

End Pipeline.

(** ** The entry point *)

Arguments validate_image : simpl never.
Arguments process_image : simpl never.
Arguments OCRResponse_init : simpl never.
Arguments validate_file_size : simpl never.
Arguments validate_image_content_type : simpl never.
Arguments py : simpl never.

Section EntryPoint.

Context (X : Externals).

Lemma validate_image_result (self : OCRService X) (contents : list byte) :
  result (validate_image X self contents) = Returns (image_verified X contents).
Proof.
  unfold validate_image, image_verified, call, log, ret, bind, try_except, result.
  destruct (Image_open X contents) as [img|e1]; simpl; [| done].
  by destruct (Image_verify X img) as [[]|e2].
Qed.

Lemma validate_image_engine_calls (self : OCRService X) (contents : list byte) :
  engine_calls (trace (validate_image X self contents)) = [].
Proof.
  unfold validate_image, call, log, ret, bind, try_except, trace.
  destruct (Image_open X contents) as [img|e1]; simpl; [| done].
  by destruct (Image_verify X img) as [[]|e2].
Qed.

(** What [predict] answers, gate by gate. *)
Lemma predict_rejects_type (svc : OCRService X) (image : UploadFile) :
  validate_image_content_type (content_type image) = false →
  predict X svc image
  = ([], Raises (HTTPException 400
                   (py "File must be a supported image type (PNG, JPG, JPEG)"))).
Proof. intros H. unfold predict. by rewrite H. Qed.

Lemma predict_rejects_unavailable (svc : OCRService X) (image : UploadFile) :
  validate_image_content_type (content_type image) = true →
  is_healthy svc = false →
  predict X svc image
  = ([], Raises (HTTPException 503 (py "OCR service temporarily unavailable"))).
Proof. intros H1 H2. unfold predict. by rewrite H1, H2. Qed.

Lemma predict_read_raises (svc : OCRService X) (image : UploadFile) (e : exn) :
  validate_image_content_type (content_type image) = true →
  is_healthy svc = true →
  read image = Raises e →
  predict X svc image
  = ([UploadRead],
     Raises match e with
            | HTTPException _ _ => e
            | Error msg =>
                HTTPException 500 (py "Internal server error: " ++ msg)
            end).
Proof.
  intros H1 H2 H3. unfold predict, call, bind, try_except, raise.
  rewrite H1, H2, H3. simpl. by destruct e.
Qed.

Lemma predict_rejects_size (svc : OCRService X) (image : UploadFile) bs :
  validate_image_content_type (content_type image) = true →
  is_healthy svc = true →
  read image = Returns bs →
  validate_file_size bs 10 = false →
  predict X svc image
  = ([UploadRead],
     Raises (HTTPException 400 (py "File size too large. Maximum size is 10MB"))).
Proof.
  intros H1 H2 H3 H4. unfold predict, call, bind, try_except, raise.
  rewrite H1, H2, H3. simpl. rewrite H4. reflexivity.
Qed.

Lemma predict_rejects_image (svc : OCRService X) (image : UploadFile) bs :
  validate_image_content_type (content_type image) = true →
  is_healthy svc = true →
  read image = Returns bs →
  validate_file_size bs 10 = true →
  image_verified X bs = false →
  predict X svc image
  = ([UploadRead] ++ trace (validate_image X svc bs),
     Raises (HTTPException 400 (py "Invalid image file"))).
Proof.
  intros H1 H2 H3 H4 H5. unfold predict, call, bind, try_except, raise, ret.
  rewrite H1, H2, H3. simpl. rewrite H4. simpl.
  pose proof (validate_image_result svc bs) as Hv. rewrite H5 in Hv.
  destruct (validate_image X svc bs) as [tv rv]. simpl in Hv. subst rv.
  simpl. by rewrite !app_nil_r.
Qed.

Lemma predict_accepts (svc : OCRService X) (image : UploadFile) bs :
  validate_image_content_type (content_type image) = true →
  is_healthy svc = true →
  read image = Returns bs →
  validate_file_size bs 10 = true →
  image_verified X bs = true →
  ∃ d o, result (process_image X svc bs) = Returns d
         ∧ OCRResponse_init X d = ([], Returns o)
         ∧ response_invariant o
         ∧ predict X svc image
           = ([UploadRead] ++ trace (validate_image X svc bs)
                ++ trace (process_image X svc bs),
              Returns o).
Proof.
  intros H1 H2 H3 H4 H5.
  destruct (process_image_returns X svc bs) as (d & Hd & Hp).
  destruct (response_of_processed X d Hp) as (o & Ho & Hinv).
  exists d, o. split_and!; try done.
  unfold predict, call, bind, try_except, raise, ret.
  rewrite H1, H2, H3. simpl. rewrite H4. simpl.
  pose proof (validate_image_result svc bs) as Hv. rewrite H5 in Hv.
  destruct (validate_image X svc bs) as [tv rv]. simpl in Hv. subst rv.
  destruct (process_image X svc bs) as [tp rp]. simpl in Hd. subst rp.
  simpl. rewrite Ho. simpl. by rewrite !app_nil_r.
Qed.

End EntryPoint.

Arguments preprocess : simpl never.
Arguments _extract_text : simpl never.

Section Recognition.

Context (X : Externals).

Lemma extract_text_engine_calls (self : OCRService X) (image bgr : ndarray) r :
  reader self = Some r →
  cv2_cvtColor X image (bgr_code image) = Returns bgr →
  engine_calls (trace (_extract_text X self image)) = [bgr].
Proof.
  intros Hr Hc. unfold _extract_text, readtext, bgr_code in *. rewrite Hr.
  destruct (decide (length (shape image) = 3)) as [Hd|Hd];
    unfold call, bind, try_except, log, ret, trace; rewrite Hc; simpl;
    destruct (r bgr) as [hits|e1]; simpl; try done;
    by destruct (collect X hits).
Qed.

(** When the image decodes, the engine is called once, on the preprocessed
    pixels of the payload. *)
Lemma process_image_engine_calls (self : OCRService X) (contents : list byte)
    r img img' a bgr :
  reader self = Some r →
  Image_open X contents = Returns img →
  to_rgb X img = Returns img' →
  np_array X img' = Returns a →
  cv2_cvtColor X (preprocessed X a) (bgr_code (preprocessed X a)) = Returns bgr →
  engine_calls (trace (process_image X self contents)) = [bgr].
Proof.
  intros Hr Ho Hrgb Ha Hc.
  pose proof (preprocess_result X a) as Hp.
  pose proof (preprocess_engine_calls X a) as Hpe.
  pose proof (extract_text_engine_calls self (preprocessed X a) bgr r Hr Hc) as He.
  destruct (extract_text_returns X self (preprocessed X a)) as (te & d & Hte & _).
  rewrite Hte in He. simpl in He.
  fold (preprocessed X a) in Hp.
  unfold process_image, is_healthy, to_rgb in *. rewrite Hr. cbn [negb].
  unfold call, bind, try_except, ret, trace in *. rewrite Ho.
  destruct (decide (mode img ≠ py "RGB")) as [Hm|Hm];
    (rewrite Hrgb || injection Hrgb as <-); rewrite Ha;
    destruct (preprocess X a) as [tp rp]; simpl in Hp, Hpe; subst rp;
    rewrite Hte; simpl;
    rewrite ?engine_calls_app, Hpe, ?engine_calls_app, He; reflexivity.
Qed.

End Recognition.

(** ** Start-up and the scenarios of the specification *)

(** The service is ready exactly when the constructor of the reader
    returned. *)
Lemma initialize_ocr_health (X : Externals) :
  ∃ t svc, _initialize_ocr X = (t, Returns svc)
           ∧ is_healthy svc
             = match easyocr_Reader X OCR_LANGUAGES OCR_GPU with
               | Returns _ => true
               | Raises _ => false
               end.
Proof.
  unfold _initialize_ocr, call, log, ret, bind, try_except.
  destruct (easyocr_Reader X OCR_LANGUAGES OCR_GPU) as [r|e1]; simpl;
    do 2 eexists; split; reflexivity.
Qed.

(** With hits, the confidence in the dictionary is the rounding to three
    digits of the sum of the confidences divided by their number. *)
Lemma aggregated_confidence (X : Externals) (h : hit (float X))
    (hits : list (hit (float X))) :
  aggregated X (h :: hits) !! "confidence"
  = Some (VFloat (float_round X
                    (float_div X
                       (float_sum X (map hit_confidence (h :: hits)))
                       (length (h :: hits)))
                    3)).
Proof. unfold aggregated, rounded_average. simpl. by rewrite length_map. Qed.

(** Five bytes that are no image, declared [image/png]: 400. *)
Example predict_five_bytes :
  predict Sample.externals Sample.ready
    (Sample.upload "image/png" [x01; x02; x03; x04; x05])
  = ([UploadRead; ImageOpen [x01; x02; x03; x04; x05];
      Log WARNING (py "Image validation failed: cannot identify image file")],
     Raises (HTTPException 400 (py "Invalid image file"))).
Proof. vm_compute. reflexivity. Qed.

(** An image on which the engine finds nothing. *)
Example predict_blank_image :
  result (predict Sample.externals Sample.ready_blind
            (Sample.upload "image/png" (Sample.png_magic ++ [x00])))
  = Returns {| success := true; text := []; confidence := Some (inject_Z 0);
               word_count := Some 0%Z; error := None;
               image_format := Some (py "PNG");
               image_size := Some (py "2x1") |}.
Proof. vm_compute. reflexivity. Qed.

(** * The claims *)

(** C1, as the code has it: when the service is unavailable (its reader is
    not initialised), [predict] calls no collaborator at all, so neither the
    recognition engine nor the decoder, whatever the payload; it answers the
    503 error when the declared content type is supported, and the 400 error
    of the content-type gate, which comes first, when it is not. *)
Theorem predict_unavailable (X : Externals) (svc : OCRService X)
    (image : UploadFile) :
  is_healthy svc = false →
  reader svc = None
  ∧ trace (predict X svc image) = []
  ∧ engine_calls (trace (predict X svc image)) = []
  ∧ result (predict X svc image)
    = if validate_image_content_type (content_type image)
      then Raises (HTTPException 503 (py "OCR service temporarily unavailable"))
      else Raises (HTTPException 400
                     (py "File must be a supported image type (PNG, JPG, JPEG)")).
Proof.
  intros Hh.
  assert (Hr : reader svc = None)
    by (unfold is_healthy in Hh; destruct (reader svc); [discriminate | done]).
  destruct (validate_image_content_type (content_type image)) eqn:Hct.
  - by rewrite (predict_rejects_unavailable X svc image Hct Hh).
  - by rewrite (predict_rejects_type X svc image Hct).
Qed.

Lemma predict_unavailable_png :
  reader Sample.unavailable = None
  ∧ trace (predict Sample.externals Sample.unavailable
             (Sample.upload "image/png" Sample.gif_bytes)) = []
  ∧ engine_calls (trace (predict Sample.externals Sample.unavailable
                           (Sample.upload "image/png" Sample.gif_bytes))) = []
  ∧ result (predict Sample.externals Sample.unavailable
              (Sample.upload "image/png" Sample.gif_bytes))
    = if validate_image_content_type
           (content_type (Sample.upload "image/png" Sample.gif_bytes))
      then Raises (HTTPException 503 (py "OCR service temporarily unavailable"))
      else Raises (HTTPException 400
                     (py "File must be a supported image type (PNG, JPG, JPEG)")).
Proof.
  apply (predict_unavailable Sample.externals Sample.unavailable
           (Sample.upload "image/png" Sample.gif_bytes)).
  reflexivity.
Defined.

(** C1 as stated fails: an unavailable service answers a request that
    declares [text/plain] with the 400 error, not with the 503 error. *)
Lemma predict_unavailable_text_plain :
  is_healthy Sample.unavailable = false
  ∧ predict Sample.externals Sample.unavailable
      (Sample.upload "text/plain" Sample.gif_bytes)
    = ([], Raises (HTTPException 400
                     (py "File must be a supported image type (PNG, JPG, JPEG)")))
  ∧ ¬ is_service_unavailable
        (result (predict Sample.externals Sample.unavailable
                   (Sample.upload "text/plain" Sample.gif_bytes))).
Proof. split_and!; [reflexivity | reflexivity | intros []]. Qed.

(** C2, as the code has it: the content-type gate rejects exactly the
    declared types other than [image/png], [image/jpeg] and [image/jpg] (and
    a missing type); it reads nothing but the declared type, and a rejected
    request is answered with the 400 error before the payload is read or
    decoded, whatever the bytes and the state of the service. *)
Theorem content_type_gate (X : Externals) (svc : OCRService X)
    (ct : option pystr) (payload : outcome (list byte)) :
  (validate_image_content_type ct = false
   ↔ ∀ s, ct = Some s → s ∉ [py "image/png"; py "image/jpeg"; py "image/jpg"])
  ∧ (validate_image_content_type ct = false
     ↔ predict X svc {| content_type := ct; read := payload |}
       = ([], Raises (HTTPException 400
                        (py "File must be a supported image type (PNG, JPG, JPEG)")))).
Proof.
  split.
  - unfold validate_image_content_type. destruct ct as [s|].
    + change supported_types
        with [py "image/png"; py "image/jpeg"; py "image/jpg"].
      rewrite bool_decide_eq_false. split.
      * intros Hn s' [= <-]. done.
      * intros H. by apply H.
    + split; [intros _ s [=] | done].
  - split.
    + intros H. by apply predict_rejects_type.
    + intros H. destruct (validate_image_content_type ct) eqn:Hct; [| done].
      exfalso. unfold predict in H. cbn [content_type read] in H.
      rewrite Hct in H. cbn [negb] in H.
      destruct (is_healthy svc); cbn [negb] in H; [| discriminate].
      apply (f_equal trace) in H.
      rewrite trace_try_except, trace_bind in H.
      change (trace (call UploadRead payload)) with [UploadRead] in H.
      repeat match type of H with
             | context [match ?r with Returns _ => _ | Raises _ => _ end] =>
                 destruct r
             end; discriminate.
Qed.

(** C2 as stated fails: [image/jpg] is not in the set the specification
    names, and the gate accepts it. *)
Lemma content_type_gate_image_jpg :
  validate_image_content_type (Some (py "image/jpg")) = true
  ∧ py "image/jpg" ∉ spec_supported_types.
Proof.
  split; [reflexivity |].
  unfold spec_supported_types. rewrite !elem_of_cons, elem_of_nil.
  intros [[=]|[[=]|[]]].
Qed.

(** C3: when the engine returns a sequence of hits, the [text] of the
    result is the texts of the hits, in the order of the engine, none
    dropped and none merged, concatenated with single spaces and then
    trimmed of leading and trailing whitespace; no other string is. *)
Theorem extract_text_joins_hits (X : Externals) (self : OCRService X)
    (image bgr : ndarray) r (hits : list (hit (float X))) :
  reader self = Some r →
  cv2_cvtColor X image (bgr_code image) = Returns bgr →
  r bgr = Returns hits →
  ∃ d t, result (_extract_text X self image) = Returns d
         ∧ d !! "text" = Some (VStr t)
         ∧ fst (collect X hits) = map hit_text hits
         ∧ spec_trimmed (spec_concat_spaced (map hit_text hits)) t
         ∧ ∀ t', spec_trimmed (spec_concat_spaced (map hit_text hits)) t' → t' = t.
Proof.
  intros Hr Hc Hh.
  rewrite (extract_text_hits X self image bgr r hits Hr Hc Hh).
  exists (aggregated X hits), (str_strip (str_join (py " ") (map hit_text hits))).
  split_and!.
  - reflexivity.
  - reflexivity.
  - by rewrite collect_map.
  - rewrite str_join_space. apply str_strip_trimmed.
  - intros t' Ht'. rewrite str_join_space.
    eapply spec_trimmed_unique; [exact Ht' | apply str_strip_trimmed].
Qed.

Lemma extract_text_joins_hits_sample :
  ∃ d t, result (_extract_text Sample.externals Sample.ready Sample.gray)
         = Returns d
         ∧ d !! "text" = Some (VStr t)
         ∧ fst (collect Sample.externals Sample.two_words)
           = map hit_text Sample.two_words
         ∧ spec_trimmed (spec_concat_spaced (map hit_text Sample.two_words)) t
         ∧ ∀ t', spec_trimmed
                   (spec_concat_spaced (map hit_text Sample.two_words)) t' →
                 t' = t.
Proof.
  apply (extract_text_joins_hits Sample.externals Sample.ready Sample.gray
           {| shape := [1; 2; 3]; data := [255; 0]%N |}
           Sample.engine Sample.two_words);
    reflexivity.
Defined.

(** The hits of the sample engine give "HELLO WORLD"; a hit found twice is
    kept twice. *)
Example extract_text_sample_text :
  aggregated Sample.externals Sample.two_words !! "text"
  = Some (VStr (py "HELLO WORLD"))
  ∧ aggregated Sample.externals (Sample.two_words ++ Sample.two_words) !! "text"
    = Some (VStr (py "HELLO WORLD HELLO WORLD")).
Proof. split; reflexivity. Qed.

(** C5: the [word_count] of the result is the number of hits the engine
    returned. *)
Theorem extract_text_word_count (X : Externals) (self : OCRService X)
    (image bgr : ndarray) r (hits : list (hit (float X))) :
  reader self = Some r →
  cv2_cvtColor X image (bgr_code image) = Returns bgr →
  r bgr = Returns hits →
  ∃ d, result (_extract_text X self image) = Returns d
       ∧ d !! "word_count" = Some (VInt (Z.of_nat (length hits))).
Proof.
  intros Hr Hc Hh.
  rewrite (extract_text_hits X self image bgr r hits Hr Hc Hh).
  by exists (aggregated X hits).
Qed.

Lemma extract_text_word_count_sample :
  ∃ d, result (_extract_text Sample.externals Sample.ready Sample.gray)
       = Returns d
       ∧ d !! "word_count" = Some (VInt (Z.of_nat (length Sample.two_words))).
Proof.
  apply (extract_text_word_count Sample.externals Sample.ready Sample.gray
           {| shape := [1; 2; 3]; data := [255; 0]%N |}
           Sample.engine Sample.two_words);
    reflexivity.
Defined.

(** C6: when the engine returns no hit, the result is a success with the
    empty text, the confidence 0 (the integer 0 in the dictionary, the float
    0.0 in the response), the word count 0 and no error. *)
Theorem extract_text_no_hits (X : Externals) (self : OCRService X)
    (image bgr : ndarray) r :
  reader self = Some r →
  cv2_cvtColor X image (bgr_code image) = Returns bgr →
  r bgr = Returns [] →
  ∃ d, result (_extract_text X self image) = Returns d
       ∧ d !! "success" = Some (VBool true)
       ∧ d !! "text" = Some (VStr [])
       ∧ d !! "confidence" = Some (VInt 0)
       ∧ d !! "word_count" = Some (VInt 0)
       ∧ d !! "error" = Some VNone
       ∧ OCRResponse_init X d
         = ([], Returns {| success := true; text := [];
                           confidence := Some (float_of_int X 0);
                           word_count := Some 0%Z; error := None;
                           image_format := None; image_size := None |}).
Proof.
  intros Hr Hc Hh.
  rewrite (extract_text_hits X self image bgr r [] Hr Hc Hh).
  exists (aggregated X []). split_and!; reflexivity.
Qed.

Lemma extract_text_no_hits_sample :
  ∃ d, result (_extract_text Sample.externals Sample.ready_blind Sample.gray)
       = Returns d
       ∧ d !! "success" = Some (VBool true)
       ∧ d !! "text" = Some (VStr [])
       ∧ d !! "confidence" = Some (VInt 0)
       ∧ d !! "word_count" = Some (VInt 0)
       ∧ d !! "error" = Some VNone
       ∧ OCRResponse_init Sample.externals d
         = ([], Returns {| success := true; text := [];
                           confidence := Some (float_of_int Sample.externals 0);
                           word_count := Some 0%Z; error := None;
                           image_format := None; image_size := None |}).
Proof.
  apply (extract_text_no_hits Sample.externals Sample.ready_blind Sample.gray
           {| shape := [1; 2; 3]; data := [255; 0]%N |} Sample.blind_engine);
    reflexivity.
Defined.

(** C7: [process_image] returns, for every payload and whatever the
    collaborators and the engine do, a result in which [success] is true
    exactly when [error] is absent, and in which a false [success] comes
    with the empty [text] and an [error]; so does the response [predict]
    builds from it. *)
Theorem process_image_invariant (X : Externals) (self : OCRService X)
    (contents : list byte) :
  ∃ d o, result (process_image X self contents) = Returns d
         ∧ result_invariant d
         ∧ result (OCRResponse_init X d) = Returns o
         ∧ response_invariant o.
Proof.
  destruct (process_image_returns X self contents) as (d & Hd & Hp).
  destruct (response_of_processed X d Hp) as (o & Ho & Hinv).
  exists d, o. split_and!; [done | by apply processed_invariant | | done].
  by rewrite Ho.
Qed.

(** C8: [preprocess] returns an image for every input: the denoised
    grayscale image when both steps return, the input itself when the
    conversion or the filter raises. *)
Theorem preprocess_never_raises (X : Externals) (image : ndarray) :
  ∃ out, result (preprocess X image) = Returns out
         ∧ (∀ e, grayscale X image = Raises e → out = image)
         ∧ (∀ gray e, grayscale X image = Returns gray →
                      cv2_medianBlur X gray 3 = Raises e → out = image)
         ∧ (∀ gray denoised, grayscale X image = Returns gray →
                             cv2_medianBlur X gray 3 = Returns denoised →
                             out = denoised).
Proof.
  rewrite preprocess_result. eexists. split; [reflexivity |].
  split_and!.
  - intros e ->. done.
  - intros gray e -> ->. done.
  - intros gray denoised -> ->. done.
Qed.

(** An image with an alpha channel, which the sample conversion refuses,
    comes back as it went in. *)
Example preprocess_alpha_channel :
  preprocess Sample.externals {| shape := [1; 1; 4]; data := [1; 2; 3; 4]%N |}
  = ([CvtColor COLOR_RGB2GRAY;
      Log WARNING (py "Image preprocessing failed: cv2.error: invalid number of channels")],
     Returns {| shape := [1; 1; 4]; data := [1; 2; 3; 4]%N |}).
Proof. reflexivity. Qed.

(** C9, as the code has it: when reading the upload fails with an exception
    that is not an [HTTPException], [predict] answers the 500 error whose
    detail is "Internal server error: " followed by the message of that
    exception; and a 500 error out of [predict] is either of this form or an
    [HTTPException] the read itself raised. *)
Theorem predict_internal_error (X : Externals) (svc : OCRService X)
    (image : UploadFile) :
  validate_image_content_type (content_type image) = true →
  is_healthy svc = true →
  (∀ msg, read image = Raises (Error msg) →
          predict X svc image
          = ([UploadRead],
             Raises (HTTPException 500 (py "Internal server error: " ++ msg))))
  ∧ (∀ d, result (predict X svc image) = Raises (HTTPException 500 d) →
          read image = Raises (HTTPException 500 d)
          ∨ ∃ msg, read image = Raises (Error msg)
                   ∧ d = py "Internal server error: " ++ msg).
Proof.
  intros Hct Hh. split.
  - intros msg Hr. by rewrite (predict_read_raises X svc image _ Hct Hh Hr).
  - intros d H. destruct (read image) as [bs|e] eqn:Hr.
    + destruct (validate_file_size bs 10) eqn:Hs.
      * destruct (image_verified X bs) eqn:Hv.
        -- destruct (predict_accepts X svc image bs Hct Hh Hr Hs Hv)
             as (d0 & o & _ & _ & _ & Hp).
           rewrite Hp in H. discriminate.
        -- rewrite (predict_rejects_image X svc image bs Hct Hh Hr Hs Hv) in H.
           discriminate.
      * rewrite (predict_rejects_size X svc image bs Hct Hh Hr Hs) in H.
        discriminate.
    + rewrite (predict_read_raises X svc image e Hct Hh Hr) in H.
      destruct e as [c d'|msg]; injection H as H.
      * left. congruence.
      * right. exists msg. by split.
Qed.

Lemma predict_internal_error_sample :
  (∀ msg, read (Sample.broken_upload "image/png" "No space left on device")
          = Raises (Error msg) →
          predict Sample.externals Sample.ready
            (Sample.broken_upload "image/png" "No space left on device")
          = ([UploadRead],
             Raises (HTTPException 500 (py "Internal server error: " ++ msg))))
  ∧ (∀ d, result (predict Sample.externals Sample.ready
                    (Sample.broken_upload "image/png" "No space left on device"))
          = Raises (HTTPException 500 d) →
          read (Sample.broken_upload "image/png" "No space left on device")
          = Raises (HTTPException 500 d)
          ∨ ∃ msg, read (Sample.broken_upload "image/png" "No space left on device")
                   = Raises (Error msg)
                   ∧ d = py "Internal server error: " ++ msg).
Proof.
  apply (predict_internal_error Sample.externals Sample.ready
           (Sample.broken_upload "image/png" "No space left on device"));
    reflexivity.
Defined.

(** C9 as stated fails: the detail of the 500 error repeats the message of
    the failure, so two failures give two details and no one message is the
    detail of them all. *)
Lemma predict_internal_error_detail :
  result (predict Sample.externals Sample.ready
            (Sample.broken_upload "image/png" "No space left on device: /var/spool/upload"))
  = Raises (HTTPException 500
              (py "Internal server error: No space left on device: /var/spool/upload"))
  ∧ result (predict Sample.externals Sample.ready
              (Sample.broken_upload "image/png" "Connection reset by peer"))
    = Raises (HTTPException 500
                (py "Internal server error: Connection reset by peer"))
  ∧ ¬ ∃ generic, ∀ msg,
          result (predict Sample.externals Sample.ready
                    (Sample.broken_upload "image/png" msg))
          = Raises (HTTPException 500 generic).
Proof.
  split_and!; [reflexivity | reflexivity |].
  intros [generic H].
  pose proof (H "a") as Ha. pose proof (H "b") as Hb.
  vm_compute in Ha. vm_compute in Hb. congruence.
Qed.

(** C10: the structural check accepts every payload PIL opens and
    verifies, of whatever format.  So a payload declared [image/png] that
    decodes, as a GIF or anything else, passes both gates of [predict] on a
    ready service, goes through [process_image], and the engine is called on
    its preprocessed pixels when the conversions return. *)
Theorem predict_accepts_any_format (X : Externals) (svc : OCRService X)
    (image : UploadFile) r bs img :
  content_type image = Some (py "image/png") →
  reader svc = Some r →
  read image = Returns bs →
  validate_file_size bs 10 = true →
  Image_open X bs = Returns img →
  Image_verify X img = Returns tt →
  validate_image_content_type (content_type image) = true
  ∧ result (validate_image X svc bs) = Returns true
  ∧ (∃ d o, result (process_image X svc bs) = Returns d
            ∧ OCRResponse_init X d = ([], Returns o)
            ∧ predict X svc image
              = ([UploadRead] ++ trace (validate_image X svc bs)
                   ++ trace (process_image X svc bs),
                 Returns o))
  ∧ (∀ img' a bgr,
       to_rgb X img = Returns img' →
       np_array X img' = Returns a →
       cv2_cvtColor X (preprocessed X a) (bgr_code (preprocessed X a))
       = Returns bgr →
       engine_calls (trace (predict X svc image)) = [bgr]).
Proof.
  intros Hct Hr Hread Hs Ho Hv.
  assert (Hgate : validate_image_content_type (content_type image) = true)
    by (rewrite Hct; reflexivity).
  assert (Hh : is_healthy svc = true) by (unfold is_healthy; by rewrite Hr).
  assert (Hok : image_verified X bs = true)
    by (unfold image_verified; by rewrite Ho, Hv).
  destruct (predict_accepts X svc image bs Hgate Hh Hread Hs Hok)
    as (d & o & Hd & Hinit & _ & Hp).
  split_and!.
  - exact Hgate.
  - by rewrite validate_image_result, Hok.
  - by exists d, o.
  - intros img' a bgr Hrgb Ha Hc. rewrite Hp. unfold trace at 1. cbn [fst].
    rewrite !engine_calls_app, validate_image_engine_calls.
    by rewrite (process_image_engine_calls X svc bs r img img' a bgr).
Qed.

Lemma predict_accepts_gif_as_png :
  validate_image_content_type
    (content_type (Sample.upload "image/png" Sample.gif_bytes)) = true
  ∧ result (validate_image Sample.externals Sample.ready Sample.gif_bytes)
    = Returns true
  ∧ (∃ d o, result (process_image Sample.externals Sample.ready Sample.gif_bytes)
            = Returns d
            ∧ OCRResponse_init Sample.externals d = ([], Returns o)
            ∧ predict Sample.externals Sample.ready
                (Sample.upload "image/png" Sample.gif_bytes)
              = ([UploadRead]
                   ++ trace (validate_image Sample.externals Sample.ready
                               Sample.gif_bytes)
                   ++ trace (process_image Sample.externals Sample.ready
                               Sample.gif_bytes),
                 Returns o))
  ∧ (∀ img' a bgr,
       to_rgb Sample.externals (Sample.decoded "GIF" "P") = Returns img' →
       np_array Sample.externals img' = Returns a →
       cv2_cvtColor Sample.externals (preprocessed Sample.externals a)
         (bgr_code (preprocessed Sample.externals a))
       = Returns bgr →
       engine_calls (trace (predict Sample.externals Sample.ready
                              (Sample.upload "image/png" Sample.gif_bytes)))
       = [bgr]).
Proof.
  apply (predict_accepts_any_format Sample.externals Sample.ready
           (Sample.upload "image/png" Sample.gif_bytes)
           Sample.engine Sample.gif_bytes (Sample.decoded "GIF" "P"));
    reflexivity.
Defined.

(** The run of [predict] on the GIF declared [image/png]: the engine is
    called and the response names the format PIL found. *)
Example predict_gif_as_png_run :
  predict Sample.externals Sample.ready
    (Sample.upload "image/png" Sample.gif_bytes)
  = ([UploadRead; ImageOpen Sample.gif_bytes; ImageVerify;
      ImageOpen Sample.gif_bytes; ImageConvert; NpArray;
      CvtColor COLOR_RGB2GRAY; MedianBlur; CvtColor COLOR_GRAY2BGR;
      ReadText {| shape := [1; 2; 3]; data := [255; 255; 255; 0; 0; 0]%N |}],
     Returns {| success := true; text := py "HELLO WORLD";
                confidence := Some (Qmake 17 20); word_count := Some 2%Z;
                error := None; image_format := Some (py "GIF");
                image_size := Some (py "2x1") |}).
Proof. vm_compute. reflexivity. Qed.

(** * Further properties *)

(** ** The recognition step *)

Section RecognitionCases.

Context (X : Externals).

Lemma extract_text_engine_raises (self : OCRService X) (image bgr : ndarray)
    r (e : exn) :
  reader self = Some r →
  cv2_cvtColor X image (bgr_code image) = Returns bgr →
  r bgr = Raises e →
  _extract_text X self image
  = ([CvtColor (bgr_code image); ReadText bgr;
      Log ERROR (py "OCR extraction failed: " ++ exn_str e)],
     Returns (failure X (py "OCR processing failed: " ++ exn_str e))).
Proof.
  intros Hr Hc He. unfold _extract_text, readtext, bgr_code in *. rewrite Hr.
  destruct (decide (length (shape image) = 3)) as [Hd|Hd];
    unfold call, bind, try_except, log, ret; rewrite Hc; simpl; rewrite He;
    reflexivity.
Qed.

Lemma extract_text_conversion_raises (self : OCRService X) (image : ndarray)
    (e : exn) :
  cv2_cvtColor X image (bgr_code image) = Raises e →
  _extract_text X self image
  = ([CvtColor (bgr_code image);
      Log ERROR (py "OCR extraction failed: " ++ exn_str e)],
     Returns (failure X (py "OCR processing failed: " ++ exn_str e))).
Proof.
  intros Hc. unfold _extract_text, bgr_code in *.
  destruct (decide (length (shape image) = 3)) as [Hd|Hd];
    unfold call, bind, try_except, log, ret; rewrite Hc; reflexivity.
Qed.

Lemma extract_text_engine_calls_le (self : OCRService X) (image : ndarray) :
  (length (engine_calls (trace (_extract_text X self image))) ≤ 1)%nat.
Proof.
  destruct (cv2_cvtColor X image (bgr_code image)) as [bgr|e] eqn:Hc.
  - destruct (reader self) as [r|] eqn:Hr.
    + by rewrite (extract_text_engine_calls X self image bgr r Hr Hc).
    + unfold _extract_text, readtext, bgr_code in *. rewrite Hr.
      destruct (decide (length (shape image) = 3)) as [Hd|Hd];
        unfold call, bind, try_except, log, ret, raise, trace; rewrite Hc;
        simpl; lia.
  - rewrite (extract_text_conversion_raises self image e Hc). simpl. lia.
Qed.

(** [process_image] on a ready service, by what the decoding gives. *)
Lemma process_image_decode (self : OCRService X) (contents : list byte) :
  is_healthy self = true →
  match decode X contents with
  | Returns (img, a) =>
      ∃ te d0, _extract_text X self (preprocessed X a) = (te, Returns d0)
               ∧ result (process_image X self contents)
                 = Returns (dict_update d0 (metadata X img))
               ∧ engine_calls (trace (process_image X self contents))
                 = engine_calls te
  | Raises e =>
      result (process_image X self contents)
      = Returns (failure X (py "Image processing failed: " ++ exn_str e))
      ∧ engine_calls (trace (process_image X self contents)) = []
  end.
Proof.
  intros Hh. unfold decode, process_image, to_rgb. rewrite Hh. cbn [negb].
  unfold call, bind, try_except, log, ret, trace, result.
  destruct (Image_open X contents) as [img|e0]; [| by split].
  assert (Hrest : ∀ img' a, np_array X img' = Returns a →
            ∃ te d0 tp, _extract_text X self (preprocessed X a) = (te, Returns d0)
                     ∧ preprocess X a = (tp, Returns (preprocessed X a))
                     ∧ engine_calls tp = []).
  { intros img' a _.
    destruct (extract_text_returns X self (preprocessed X a)) as (te & d0 & Hte & _).
    pose proof (preprocess_result X a) as Hp.
    pose proof (preprocess_engine_calls X a) as Hpe.
    fold (preprocessed X a) in Hp.
    destruct (preprocess X a) as [tp rp]. simpl in Hp, Hpe. subst rp.
    by exists te, d0, tp. }
  destruct (decide (mode img ≠ py "RGB")) as [Hm|Hm].
  - destruct (Image_convert X img (py "RGB")) as [img'|e1]; [| by split].
    destruct (np_array X img') as [a|e2] eqn:Ha; [| by split].
    destruct (Hrest img' a Ha) as (te & d0 & tp & Hte & Hp & Hpe).
    exists te, d0. rewrite Hp, Hte. simpl. split_and!; [done | done |].
    by rewrite !engine_calls_app, Hpe, app_nil_r.
  - destruct (np_array X img) as [a|e2] eqn:Ha; [| by split].
    destruct (Hrest img a Ha) as (te & d0 & tp & Hte & Hp & Hpe).
    exists te, d0. rewrite Hp, Hte. simpl. split_and!; [done | done |].
    by rewrite !engine_calls_app, Hpe, app_nil_r.
Qed.

Lemma process_image_engine_calls_le (self : OCRService X) (contents : list byte) :
  (length (engine_calls (trace (process_image X self contents))) ≤ 1)%nat.
Proof.
  destruct (is_healthy self) eqn:Hh.
  - pose proof (process_image_decode self contents Hh) as H.
    destruct (decode X contents) as [[img a]|e].
    + destruct H as (te & d0 & Hte & _ & ->).
      pose proof (extract_text_engine_calls_le self (preprocessed X a)) as Hle.
      by rewrite Hte in Hle.
    + destruct H as [_ ->]. simpl. lia.
  - unfold process_image. rewrite Hh. simpl. lia.
Qed.

End RecognitionCases.

(** ** Responses *)

Section Responses.

Context (X : Externals).

Abbreviation dict := (gmap string (pyval (float X))).

Lemma response_of_failure (msg : pystr) :
  OCRResponse_init X (failure X msg)
  = ([], Returns {| success := false; text := []; confidence := None;
                    word_count := None; error := Some msg;
                    image_format := None; image_size := None |}).
Proof. reflexivity. Qed.

Lemma response_of_failure_metadata (msg : pystr) (img : pil_image) :
  OCRResponse_init X (dict_update (failure X msg) (metadata X img))
  = ([], Returns {| success := false; text := []; confidence := None;
                    word_count := None; error := Some msg;
                    image_format := format img;
                    image_size := Some (str_of_nat (fst (size img)) ++ py "x"
                                        ++ str_of_nat (snd (size img))) |}).
Proof. unfold metadata. destruct (format img); reflexivity. Qed.

Lemma response_of_aggregated (hits : list (hit (float X))) (img : pil_image) :
  OCRResponse_init X (dict_update (aggregated X hits) (metadata X img))
  = ([], Returns {| success := true;
                    text := str_strip (str_join (py " ") (map hit_text hits));
                    confidence := Some (response_confidence X hits);
                    word_count := Some (Z.of_nat (length hits));
                    error := None;
                    image_format := format img;
                    image_size := Some (str_of_nat (fst (size img)) ++ py "x"
                                        ++ str_of_nat (snd (size img))) |}).
Proof.
  unfold metadata. destruct hits as [|h hits]; destruct (format img);
    try reflexivity;
    unfold OCRResponse_init, required_bool, required_str, optional_float,
      optional_int, optional_str, aggregated, rounded_average,
      response_confidence;
    cbn [map length]; rewrite length_map; reflexivity.
Qed.

Lemma response_shapes (d : dict) (o : OCRResponse (float X)) :
  processed d → OCRResponse_init X d = ([], Returns o) →
  success_response o ∨ failure_response o.
Proof.
  intros [[msg ->]|(d0 & fmt & sz & [[hits ->]|[msg ->]] & ->)] Ho.
  - rewrite response_of_failure in Ho. injection Ho as <-.
    right. by split_and!.
  - pose proof (response_of_aggregated hits
                  {| format := fmt; mode := []; size := (0, 0); raster := [] |})
      as H.
    unfold metadata in H. cbn [format] in H.
    assert (Hinit : ∀ sz',
              OCRResponse_init X
                (dict_update (aggregated X hits)
                   {[ "image_format" := opt_str X fmt; "image_size" := VStr sz' ]})
              = ([], Returns {| success := true;
                    text := str_strip (str_join (py " ") (map hit_text hits));
                    confidence := Some (response_confidence X hits);
                    word_count := Some (Z.of_nat (length hits));
                    error := None; image_format := fmt;
                    image_size := Some sz' |})).
    { intros sz'. clear. destruct hits as [|h hits]; destruct fmt;
        try reflexivity;
        unfold OCRResponse_init, required_bool, required_str, optional_float,
          optional_int, optional_str, aggregated, rounded_average,
          response_confidence;
        cbn [map length]; rewrite length_map; reflexivity. }
    rewrite Hinit in Ho. injection Ho as <-.
    left. exists hits. by split_and!.
  - assert (Hinit :
              OCRResponse_init X
                (dict_update (failure X msg)
                   {[ "image_format" := opt_str X fmt; "image_size" := VStr sz ]})
              = ([], Returns {| success := false; text := []; confidence := None;
                    word_count := None; error := Some msg;
                    image_format := fmt; image_size := Some sz |}))
      by (destruct fmt; reflexivity).
    rewrite Hinit in Ho. injection Ho as <-.
    right. by split_and!.
Qed.

(** A response of [predict] comes from [process_image] on the payload, after
    every gate. *)
Lemma predict_returns_inv (svc : OCRService X) (image : UploadFile)
    (o : OCRResponse (float X)) :
  result (predict X svc image) = Returns o →
  ∃ bs d, validate_image_content_type (content_type image) = true
          ∧ is_healthy svc = true
          ∧ read image = Returns bs
          ∧ validate_file_size bs 10 = true
          ∧ image_verified X bs = true
          ∧ result (process_image X svc bs) = Returns d
          ∧ processed d
          ∧ OCRResponse_init X d = ([], Returns o).
Proof.
  intros H.
  destruct (validate_image_content_type (content_type image)) eqn:Hct;
    [| by rewrite (predict_rejects_type X svc image Hct) in H].
  destruct (is_healthy svc) eqn:Hh;
    [| by rewrite (predict_rejects_unavailable X svc image Hct Hh) in H].
  destruct (read image) as [bs|e] eqn:Hr;
    [| by rewrite (predict_read_raises X svc image e Hct Hh Hr) in H].
  destruct (validate_file_size bs 10) eqn:Hs;
    [| by rewrite (predict_rejects_size X svc image bs Hct Hh Hr Hs) in H].
  destruct (image_verified X bs) eqn:Hv;
    [| by rewrite (predict_rejects_image X svc image bs Hct Hh Hr Hs Hv) in H].
  destruct (predict_accepts X svc image bs Hct Hh Hr Hs Hv)
    as (d & o' & Hd & Hinit & _ & Hp).
  rewrite Hp in H. injection H as ->.
  destruct (process_image_returns X svc bs) as (d' & Hd' & Hproc).
  rewrite Hd in Hd'. injection Hd' as <-.
  by exists bs, d.
Qed.

End Responses.

(** ** The gates of [predict] *)

(** X1: on a ready service and a supported declared type, a payload is
    answered with the 400 error "File size too large" exactly when it has
    more than 10 * 1024 * 1024 bytes, and then nothing but the read has
    happened: the payload is neither decoded nor recognised. *)
Theorem predict_size_limit (X : Externals) (svc : OCRService X)
    (image : UploadFile) (bs : list byte) :
  validate_image_content_type (content_type image) = true →
  is_healthy svc = true →
  read image = Returns bs →
  ((10 * 1024 * 1024 < Z.of_nat (length bs))%Z
   ↔ predict X svc image
     = ([UploadRead],
        Raises (HTTPException 400
                  (py "File size too large. Maximum size is 10MB")))).
Proof.
  intros Hct Hh Hr. split.
  - intros Hlen. apply (predict_rejects_size X svc image bs Hct Hh Hr).
    unfold validate_file_size. apply Z.leb_gt. lia.
  - intros H. destruct (validate_file_size bs 10) eqn:Hs.
    + exfalso. destruct (image_verified X bs) eqn:Hv.
      * destruct (predict_accepts X svc image bs Hct Hh Hr Hs Hv)
          as (d & o & _ & _ & _ & Hp).
        rewrite Hp in H. discriminate.
      * rewrite (predict_rejects_image X svc image bs Hct Hh Hr Hs Hv) in H.
        injection H as _ H. vm_compute in H. discriminate.
    + unfold validate_file_size in Hs. apply Z.leb_gt in Hs. lia.
Qed.

Lemma predict_size_limit_oversized :
  predict Sample.externals Sample.ready
    (Sample.upload "image/png" Faulty.oversized)
  = ([UploadRead],
     Raises (HTTPException 400
               (py "File size too large. Maximum size is 10MB"))).
Proof.
  apply (proj1 (predict_size_limit Sample.externals Sample.ready
                  (Sample.upload "image/png" Faulty.oversized) Faulty.oversized
                  eq_refl eq_refl eq_refl)).
  unfold Faulty.oversized. rewrite length_replicate. lia.
Defined.

(** X2: [validate_image] never raises and never reaches the engine; it
    answers [True] exactly when PIL opens the payload and verifies it, and
    [False] in every other case. *)
Theorem validate_image_fails_closed (X : Externals) (svc : OCRService X)
    (bs : list byte) :
  ∃ t b, validate_image X svc bs = (t, Returns b)
         ∧ engine_calls t = []
         ∧ (b = true ↔ ∃ img, Image_open X bs = Returns img
                              ∧ Image_verify X img = Returns tt).
Proof.
  pose proof (validate_image_result X svc bs) as Hres.
  pose proof (validate_image_engine_calls X svc bs) as Heng.
  destruct (validate_image X svc bs) as [t r]. simpl in Hres, Heng. subst r.
  exists t, (image_verified X bs). split_and!; [done | done |].
  unfold image_verified. split.
  - destruct (Image_open X bs) as [img|e1]; [| done].
    destruct (Image_verify X img) as [[]|e2] eqn:Hv; [| done].
    intros _. by exists img.
  - intros (img & -> & ->). done.
Qed.

(** X3: when PIL cannot open the payload, or opens it and cannot verify it,
    a request that passed the type and size gates is answered with the 400
    error "Invalid image file"; [process_image] is not run and the engine is
    not called. *)
Theorem predict_invalid_image (X : Externals) (svc : OCRService X)
    (image : UploadFile) (bs : list byte) :
  validate_image_content_type (content_type image) = true →
  is_healthy svc = true →
  read image = Returns bs →
  validate_file_size bs 10 = true →
  (∀ img, Image_open X bs = Returns img →
          ∃ e, Image_verify X img = Raises e) →
  predict X svc image
  = ([UploadRead] ++ trace (validate_image X svc bs),
     Raises (HTTPException 400 (py "Invalid image file")))
  ∧ engine_calls (trace (predict X svc image)) = [].
Proof.
  intros Hct Hh Hr Hs Hpil.
  assert (Hv : image_verified X bs = false).
  { unfold image_verified. destruct (Image_open X bs) as [img|e1]; [| done].
    destruct (Hpil img eq_refl) as [e ->]. done. }
  rewrite (predict_rejects_image X svc image bs Hct Hh Hr Hs Hv).
  split; [done |]. unfold trace at 1. cbn [fst].
  by rewrite engine_calls_app, validate_image_engine_calls.
Qed.

Lemma predict_invalid_image_five_bytes :
  predict Sample.externals Sample.ready
    (Sample.upload "image/png" [x01; x02; x03; x04; x05])
  = ([UploadRead]
       ++ trace (validate_image Sample.externals Sample.ready
                   [x01; x02; x03; x04; x05]),
     Raises (HTTPException 400 (py "Invalid image file")))
  ∧ engine_calls (trace (predict Sample.externals Sample.ready
                           (Sample.upload "image/png" [x01; x02; x03; x04; x05])))
    = [].
Proof.
  apply (predict_invalid_image Sample.externals Sample.ready
           (Sample.upload "image/png" [x01; x02; x03; x04; x05])
           [x01; x02; x03; x04; x05]);
    [reflexivity | reflexivity | reflexivity | reflexivity |].
  intros img H. vm_compute in H. discriminate.
Defined.

(** ** Start-up and health *)

(** X4: [_initialize_ocr] never raises.  When the constructor of the reader
    returns, the service holds that reader; when it raises, the failure is
    logged, the service has no reader, and every later request with a
    supported type is answered with the 503 error without any call. *)
Theorem initialize_ocr_outcome (X : Externals) :
  ∃ t svc, _initialize_ocr X = (t, Returns svc)
    ∧ match easyocr_Reader X OCR_LANGUAGES OCR_GPU with
      | Returns r =>
          reader svc = Some r
          ∧ t = [ReaderInit; Log INFO (py "EasyOCR initialized successfully")]
      | Raises e =>
          reader svc = None
          ∧ t = [ReaderInit;
                 Log ERROR (py "Failed to initialize EasyOCR: " ++ exn_str e)]
          ∧ ∀ image,
              validate_image_content_type (content_type image) = true →
              predict X svc image
              = ([], Raises (HTTPException 503
                               (py "OCR service temporarily unavailable")))
      end.
Proof.
  unfold _initialize_ocr, call, log, ret, bind, try_except.
  destruct (easyocr_Reader X OCR_LANGUAGES OCR_GPU) as [r|e1]; simpl.
  - do 2 eexists. split; [reflexivity |]. by split.
  - do 2 eexists. split; [reflexivity |]. split_and!; [done | done |].
    intros image Hct. by apply predict_rejects_unavailable.
Qed.

(** X5: the health endpoint and the root endpoint report the same status,
    and that status is "unhealthy" exactly when [predict] answers a request
    with a supported type with the 503 error before doing anything. *)
Theorem health_matches_predict (X : Externals) (svc : OCRService X)
    (image : UploadFile) :
  validate_image_content_type (content_type image) = true →
  root X svc !! "status" = VStr <$> status (health_check X svc)
  ∧ (status (health_check X svc) = Some (py "unhealthy")
     ↔ predict X svc image
       = ([], Raises (HTTPException 503
                        (py "OCR service temporarily unavailable"))))
  ∧ (status (health_check X svc) = Some (py "healthy")
     ↔ reader svc ≠ None).
Proof.
  intros Hct. unfold health_check, health_status, root, is_healthy.
  cbn [status].
  split_and!.
  - reflexivity.
  - split.
    + intros H. apply (predict_rejects_unavailable X svc image Hct).
      unfold is_healthy. destruct (reader svc); [| done].
      vm_compute in H. discriminate.
    + intros H. destruct (reader svc) as [r|] eqn:Hr; [| done].
      exfalso. apply (f_equal trace) in H. unfold predict in H.
      rewrite Hct in H. unfold is_healthy in H. rewrite Hr in H.
      cbn [negb] in H.
      rewrite trace_try_except, trace_bind in H.
      change (trace (call UploadRead (read image))) with [UploadRead] in H.
      repeat match type of H with
             | context [match ?r with Returns _ => _ | Raises _ => _ end] =>
                 destruct r
             end; discriminate.
  - destruct (reader svc); split; try done.
    all: intros H; vm_compute in H; discriminate.
Qed.

Lemma health_matches_predict_sample :
  root Sample.externals Sample.unavailable !! "status"
  = VStr <$> status (health_check Sample.externals Sample.unavailable)
  ∧ (status (health_check Sample.externals Sample.unavailable)
     = Some (py "unhealthy")
     ↔ predict Sample.externals Sample.unavailable
         (Sample.upload "image/jpeg" Sample.gif_bytes)
       = ([], Raises (HTTPException 503
                        (py "OCR service temporarily unavailable"))))
  ∧ (status (health_check Sample.externals Sample.unavailable)
     = Some (py "healthy")
     ↔ reader Sample.unavailable ≠ None).
Proof.
  apply (health_matches_predict Sample.externals Sample.unavailable
           (Sample.upload "image/jpeg" Sample.gif_bytes)).
  reflexivity.
Defined.

(** ** A request that passed every gate *)

Section Accepted.

Context (X : Externals).

Lemma predict_response_of (svc : OCRService X) (image : UploadFile)
    (bs : list byte) d (o : OCRResponse (float X)) :
  validate_image_content_type (content_type image) = true →
  is_healthy svc = true →
  read image = Returns bs →
  validate_file_size bs 10 = true →
  image_verified X bs = true →
  result (process_image X svc bs) = Returns d →
  OCRResponse_init X d = ([], Returns o) →
  predict X svc image
  = ([UploadRead] ++ trace (validate_image X svc bs)
       ++ trace (process_image X svc bs),
     Returns o).
Proof.
  intros Hct Hh Hr Hs Hv Hd Ho.
  destruct (predict_accepts X svc image bs Hct Hh Hr Hs Hv)
    as (d' & o' & Hd' & Ho' & _ & Hp).
  rewrite Hd in Hd'. injection Hd' as <-.
  rewrite Ho in Ho'. injection Ho' as <-.
  exact Hp.
Qed.

Lemma predict_engine_calls_accepted (svc : OCRService X) (image : UploadFile)
    (bs : list byte) :
  validate_image_content_type (content_type image) = true →
  is_healthy svc = true →
  read image = Returns bs →
  validate_file_size bs 10 = true →
  image_verified X bs = true →
  engine_calls (trace (predict X svc image))
  = engine_calls (trace (process_image X svc bs)).
Proof.
  intros Hct Hh Hr Hs Hv.
  destruct (predict_accepts X svc image bs Hct Hh Hr Hs Hv)
    as (d & o & _ & _ & _ & ->).
  unfold trace at 1. cbn [fst].
  by rewrite !engine_calls_app, validate_image_engine_calls.
Qed.

Lemma healthy_of_reader (svc : OCRService X) r :
  reader svc = Some r → is_healthy svc = true.
Proof. intros H. unfold is_healthy. by rewrite H. Qed.

End Accepted.

(** X6: the whole of a successful request.  When the payload passes the
    gates, decodes, and the engine returns hits on its preprocessed pixels,
    [predict] returns the response with the joined and trimmed text, the
    rounded mean confidence, the number of hits, no error, and the format
    and the size PIL read from the payload before any conversion. *)
Theorem predict_success (X : Externals) (svc : OCRService X)
    (image : UploadFile) r bs img a bgr (hits : list (hit (float X))) :
  validate_image_content_type (content_type image) = true →
  reader svc = Some r →
  read image = Returns bs →
  validate_file_size bs 10 = true →
  image_verified X bs = true →
  decode X bs = Returns (img, a) →
  cv2_cvtColor X (preprocessed X a) (bgr_code (preprocessed X a)) = Returns bgr →
  r bgr = Returns hits →
  result (predict X svc image)
  = Returns {| success := true;
               text := str_strip (str_join (py " ") (map hit_text hits));
               confidence := Some (response_confidence X hits);
               word_count := Some (Z.of_nat (length hits));
               error := None;
               image_format := format img;
               image_size := Some (str_of_nat (fst (size img)) ++ py "x"
                                   ++ str_of_nat (snd (size img))) |}.
Proof.
  intros Hct Hrd Hr Hs Hv Hdec Hc Hh.
  pose proof (healthy_of_reader X svc r Hrd) as Hhl.
  pose proof (process_image_decode X svc bs Hhl) as Hp. rewrite Hdec in Hp.
  destruct Hp as (te & d0 & Hte & Hres & _).
  rewrite (extract_text_hits X svc _ bgr r hits Hrd Hc Hh) in Hte.
  injection Hte as _ <-.
  by rewrite (predict_response_of X svc image bs _ _ Hct Hhl Hr Hs Hv Hres
                (response_of_aggregated X hits img)).
Qed.

Lemma predict_success_gif :
  result (predict Sample.externals Sample.ready
            (Sample.upload "image/png" Sample.gif_bytes))
  = Returns {| success := true;
               text := str_strip (str_join (py " ")
                                    (map hit_text Sample.two_words));
               confidence :=
                 Some (response_confidence Sample.externals Sample.two_words);
               word_count := Some (Z.of_nat (length Sample.two_words));
               error := None;
               image_format := format (Sample.decoded "GIF" "P");
               image_size :=
                 Some (str_of_nat (fst (size (Sample.decoded "GIF" "P")))
                       ++ py "x"
                       ++ str_of_nat (snd (size (Sample.decoded "GIF" "P")))) |}.
Proof.
  apply (predict_success Sample.externals Sample.ready
           (Sample.upload "image/png" Sample.gif_bytes) Sample.engine
           Sample.gif_bytes (Sample.decoded "GIF" "P")
           {| shape := [1; 2; 3]; data := [255; 255; 255; 0; 0; 0]%N |}
           {| shape := [1; 2; 3]; data := [255; 255; 255; 0; 0; 0]%N |}
           Sample.two_words);
    reflexivity.
Defined.

(** X7: a failure of the engine is not an error of the request.  When the
    payload passes the gates and decodes, and the engine raises, [predict]
    returns a response with [success] false, the empty text, no confidence
    and no word count, the error "OCR processing failed: " followed by the
    message of the exception, and still the format and size of the image. *)
Theorem predict_engine_failure (X : Externals) (svc : OCRService X)
    (image : UploadFile) r bs img a bgr (e : exn) :
  validate_image_content_type (content_type image) = true →
  reader svc = Some r →
  read image = Returns bs →
  validate_file_size bs 10 = true →
  image_verified X bs = true →
  decode X bs = Returns (img, a) →
  cv2_cvtColor X (preprocessed X a) (bgr_code (preprocessed X a)) = Returns bgr →
  r bgr = Raises e →
  result (predict X svc image)
  = Returns {| success := false; text := []; confidence := None;
               word_count := None;
               error := Some (py "OCR processing failed: " ++ exn_str e);
               image_format := format img;
               image_size := Some (str_of_nat (fst (size img)) ++ py "x"
                                   ++ str_of_nat (snd (size img))) |}.
Proof.
  intros Hct Hrd Hr Hs Hv Hdec Hc Hh.
  pose proof (healthy_of_reader X svc r Hrd) as Hhl.
  pose proof (process_image_decode X svc bs Hhl) as Hp. rewrite Hdec in Hp.
  destruct Hp as (te & d0 & Hte & Hres & _).
  rewrite (extract_text_engine_raises X svc _ bgr r e Hrd Hc Hh) in Hte.
  injection Hte as _ <-.
  by rewrite (predict_response_of X svc image bs _ _ Hct Hhl Hr Hs Hv Hres
                (response_of_failure_metadata X _ img)).
Qed.

Lemma predict_engine_failure_sample :
  result (predict Sample.externals Faulty.ready_failing
            (Sample.upload "image/png" Faulty.png_bytes))
  = Returns {| success := false; text := []; confidence := None;
               word_count := None;
               error := Some (py "OCR processing failed: "
                              ++ exn_str (Error (py "CUDA error: out of memory")));
               image_format := format (Sample.decoded "PNG" "RGB");
               image_size :=
                 Some (str_of_nat (fst (size (Sample.decoded "PNG" "RGB")))
                       ++ py "x"
                       ++ str_of_nat (snd (size (Sample.decoded "PNG" "RGB")))) |}.
Proof.
  apply (predict_engine_failure Sample.externals Faulty.ready_failing
           (Sample.upload "image/png" Faulty.png_bytes) Faulty.failing_engine
           Faulty.png_bytes (Sample.decoded "PNG" "RGB")
           {| shape := [1; 2; 3]; data := [255; 255; 255; 0; 0; 0]%N |}
           {| shape := [1; 2; 3]; data := [255; 255; 255; 0; 0; 0]%N |});
    reflexivity.
Defined.

(** X8: when a decoding step of [process_image] raises (opening, converting
    to RGB or building the array), the engine is not called and [predict]
    returns a response with [success] false and the error "Image processing
    failed: " followed by the message; this response carries neither format
    nor size, even when PIL had opened the image. *)
Theorem predict_decode_failure (X : Externals) (svc : OCRService X)
    (image : UploadFile) bs (e : exn) :
  validate_image_content_type (content_type image) = true →
  is_healthy svc = true →
  read image = Returns bs →
  validate_file_size bs 10 = true →
  image_verified X bs = true →
  decode X bs = Raises e →
  result (predict X svc image)
  = Returns {| success := false; text := []; confidence := None;
               word_count := None;
               error := Some (py "Image processing failed: " ++ exn_str e);
               image_format := None; image_size := None |}
  ∧ engine_calls (trace (predict X svc image)) = [].
Proof.
  intros Hct Hh Hr Hs Hv Hdec.
  pose proof (process_image_decode X svc bs Hh) as Hp. rewrite Hdec in Hp.
  destruct Hp as [Hres Heng].
  rewrite (predict_engine_calls_accepted X svc image bs Hct Hh Hr Hs Hv).
  split; [| done].
  by rewrite (predict_response_of X svc image bs _ _ Hct Hh Hr Hs Hv Hres
                (response_of_failure X _)).
Qed.

Lemma predict_decode_failure_sample :
  result (predict Faulty.no_convert Faulty.no_convert_ready
            (Sample.upload "image/png" Sample.gif_bytes))
  = Returns {| success := false; text := []; confidence := None;
               word_count := None;
               error := Some (py "Image processing failed: "
                              ++ exn_str (Error (py "cannot convert image")));
               image_format := None; image_size := None |}
  ∧ engine_calls (trace (predict Faulty.no_convert Faulty.no_convert_ready
                           (Sample.upload "image/png" Sample.gif_bytes)))
    = [].
Proof.
  apply (predict_decode_failure Faulty.no_convert Faulty.no_convert_ready
           (Sample.upload "image/png" Sample.gif_bytes) Sample.gif_bytes);
    reflexivity.
Defined.

(** ** What [predict] never does *)

(** X9: whatever the request and the collaborators, one call of [predict]
    calls the engine at most once. *)
Theorem predict_engine_at_most_once (X : Externals) (svc : OCRService X)
    (image : UploadFile) :
  (length (engine_calls (trace (predict X svc image))) ≤ 1)%nat.
Proof.
  destruct (validate_image_content_type (content_type image)) eqn:Hct;
    [| rewrite (predict_rejects_type X svc image Hct); simpl; lia].
  destruct (is_healthy svc) eqn:Hh;
    [| rewrite (predict_rejects_unavailable X svc image Hct Hh); simpl; lia].
  destruct (read image) as [bs|e] eqn:Hr;
    [| rewrite (predict_read_raises X svc image e Hct Hh Hr); simpl; lia].
  destruct (validate_file_size bs 10) eqn:Hs;
    [| rewrite (predict_rejects_size X svc image bs Hct Hh Hr Hs); simpl; lia].
  destruct (image_verified X bs) eqn:Hv.
  - rewrite (predict_engine_calls_accepted X svc image bs Hct Hh Hr Hs Hv).
    apply process_image_engine_calls_le.
  - rewrite (predict_rejects_image X svc image bs Hct Hh Hr Hs Hv).
    unfold trace at 1. cbn [fst].
    rewrite engine_calls_app, validate_image_engine_calls. simpl. lia.
Qed.


(** ** The responses [predict] returns *)

(** X11: the text of a response of [predict] neither starts nor ends with
    a whitespace character. *)
Theorem predict_text_is_trimmed (X : Externals) (svc : OCRService X)
    (image : UploadFile) (o : OCRResponse (float X)) :
  result (predict X svc image) = Returns o →
  (∀ c, head (text o) = Some c → is_space c = false)
  ∧ (∀ c, last (text o) = Some c → is_space c = false).
Proof.
  intros H.
  destruct (predict_returns_inv X svc image o H)
    as (bs & d & _ & _ & _ & _ & _ & _ & Hp & Ho).
  destruct (response_shapes X d o Hp Ho)
    as [(hits & _ & -> & _)|(_ & -> & _)].
  - destruct (str_strip_trimmed (str_join (py " ") (map hit_text hits)))
      as (l & r & _ & _ & _ & Hh & Hl).
    by split.
  - split; intros c [=].
Qed.

Lemma predict_text_is_trimmed_sample :
  (∀ c, head (text Faulty.hello_response) = Some c → is_space c = false)
  ∧ (∀ c, last (text Faulty.hello_response) = Some c → is_space c = false).
Proof.
  apply (predict_text_is_trimmed Sample.externals Sample.ready
           (Sample.upload "image/png" Sample.gif_bytes) Faulty.hello_response).
  vm_compute. reflexivity.
Defined.

(** X12: a response of [predict] has one of two shapes.  With [success]
    true it carries the text, confidence and count of some sequence of hits,
    no error, and an image size; with [success] false it carries the empty
    text, an error, and neither confidence nor word count. *)
Theorem predict_response_shape (X : Externals) (svc : OCRService X)
    (image : UploadFile) (o : OCRResponse (float X)) :
  result (predict X svc image) = Returns o →
  (success o = true → success_response o)
  ∧ (success o = false → failure_response o).
Proof.
  intros H.
  destruct (predict_returns_inv X svc image o H)
    as (bs & d & _ & _ & _ & _ & _ & _ & Hp & Ho).
  destruct (response_shapes X d o Hp Ho) as [Hs|Hf].
  - split; [done |]. destruct Hs as (hits & Hs & _). congruence.
  - split; [| done]. destruct Hf as (Hf & _). congruence.
Qed.

Lemma predict_response_shape_sample :
  (success Faulty.failed_response = true →
   @success_response Sample.externals Faulty.failed_response)
  ∧ (success Faulty.failed_response = false →
     @failure_response Sample.externals Faulty.failed_response).
Proof.
  apply (predict_response_shape Sample.externals Faulty.ready_failing
           (Sample.upload "image/png" Faulty.png_bytes) Faulty.failed_response).
  vm_compute. reflexivity.
Defined.

(** ** Degraded preprocessing *)

(** X13: a failure of preprocessing does not stop recognition.  When the
    grayscale conversion or the median filter raises on the decoded array,
    [process_image] still calls the engine, once, on that array itself in
    the channel order the engine expects. *)
Theorem process_image_degraded_preprocessing (X : Externals)
    (svc : OCRService X) r bs img a bgr :
  reader svc = Some r →
  decode X bs = Returns (img, a) →
  ((∃ e, grayscale X a = Raises e)
   ∨ (∃ gray e, grayscale X a = Returns gray
                ∧ cv2_medianBlur X gray 3 = Raises e)) →
  cv2_cvtColor X a (bgr_code a) = Returns bgr →
  engine_calls (trace (process_image X svc bs)) = [bgr].
Proof.
  intros Hrd Hdec Hfail Hc.
  assert (Hpre : preprocessed X a = a).
  { unfold preprocessed.
    destruct Hfail as [[e ->]|(gray & e & -> & ->)]; reflexivity. }
  pose proof (process_image_decode X svc bs (healthy_of_reader X svc r Hrd)) as Hp.
  rewrite Hdec in Hp. destruct Hp as (te & d0 & Hte & _ & ->).
  rewrite Hpre in Hte.
  pose proof (extract_text_engine_calls X svc a bgr r Hrd Hc) as He.
  by rewrite Hte in He.
Qed.

Lemma process_image_degraded_preprocessing_sample :
  engine_calls (trace (process_image Faulty.no_blur Faulty.no_blur_ready
                         Faulty.png_bytes))
  = [{| shape := [1; 2; 3]; data := [255; 255; 255; 0; 0; 0]%N |}].
Proof.
  apply (process_image_degraded_preprocessing Faulty.no_blur
           Faulty.no_blur_ready Sample.engine Faulty.png_bytes
           (Sample.decoded "PNG" "RGB")
           {| shape := [1; 2; 3]; data := [255; 255; 255; 0; 0; 0]%N |}
           {| shape := [1; 2; 3]; data := [255; 255; 255; 0; 0; 0]%N |});
    [reflexivity | reflexivity | | reflexivity].
  right. eexists. eexists. split; reflexivity.
Defined.

(** ** Contrast enhancement and the frontend helpers *)

(** X14: [enhance_contrast] never raises.  It returns the equalised image
    when OpenCV builds the CLAHE object and applies it, and otherwise logs
    one warning and returns its input. *)
Theorem enhance_contrast_never_raises (CLAHE : Type)
    (create : Q → nat * nat → outcome CLAHE)
    (apply_to : CLAHE → ndarray → outcome ndarray) (image : ndarray) :
  ∃ t out, enhance_contrast CLAHE create apply_to image = (t, Returns out)
    ∧ match create (Qmake 2 1) (8, 8) with
      | Returns clahe =>
          match apply_to clahe image with
          | Returns enhanced => out = enhanced ∧ t = []
          | Raises e =>
              out = image
              ∧ t = [Log WARNING
                       (py "Contrast enhancement failed: " ++ exn_str e)]
          end
      | Raises e =>
          out = image
          ∧ t = [Log WARNING (py "Contrast enhancement failed: " ++ exn_str e)]
      end.
Proof.
  unfold enhance_contrast, lift, log, ret, bind, try_except.
  destruct (create (Qmake 2 1) (8, 8)) as [clahe|e1]; simpl.
  - destruct (apply_to clahe image) as [enhanced|e2]; simpl;
      do 2 eexists; split; try reflexivity; by split.
  - do 2 eexists. split; [reflexivity | by split].
Qed.

(** X15: [test_backend_connection] never raises.  It reports a connection
    exactly when the health request returns with status 200 and a body that
    decodes as JSON, and then hands that body on; in every other case, a
    failed request, another status or a body that does not decode, it
    answers [(False, None)]. *)
Theorem test_backend_connection_outcome (J : Type)
    (requests_get : pystr → nat → outcome (Response J)) (url : pystr) :
  ∃ connected data,
    test_backend_connection J requests_get url = ([], Returns (connected, data))
    ∧ (connected = true
       ↔ ∃ resp j, requests_get (url ++ py "/health") 5 = Returns resp
                   ∧ status_code resp = 200
                   ∧ json resp = Returns j
                   ∧ data = Some j)
    ∧ (connected = false → data = None).
Proof.
  unfold test_backend_connection, lift, ret, bind, try_except.
  destruct (requests_get (url ++ py "/health") 5) as [resp|e1]; simpl.
  - destruct (bool_decide (status_code resp = 200)) eqn:Hst; simpl.
    + apply bool_decide_eq_true in Hst.
      destruct (json resp) as [j|e2] eqn:Hj; simpl.
      * do 2 eexists. split; [reflexivity |]. split; [| done].
        split; [| done]. intros _. by exists resp, j.
      * do 2 eexists. split; [reflexivity |]. split; [| done].
        split; [done |]. intros (resp' & j & [= <-] & _ & Hj' & _).
        congruence.
    + apply bool_decide_eq_false in Hst.
      do 2 eexists. split; [reflexivity |]. split; [| done].
      split; [done |]. intros (resp' & j & [= <-] & Hst' & _). done.
  - do 2 eexists. split; [reflexivity |]. split; [| done].
    split; [done |]. intros (resp & j & [=] & _).
Qed.

(** ** What the decoder is given *)

Section Decoder.

Context (X : Externals).

Lemma opened_app (t1 t2 : list event) :
  opened (t1 ++ t2) = opened t1 ++ opened t2.
Proof. unfold opened. apply omap_app. Qed.

Lemma validate_image_opened (svc : OCRService X) (bs : list byte) :
  opened (trace (validate_image X svc bs)) = [bs].
Proof.
  unfold validate_image, call, log, ret, bind, try_except, trace.
  destruct (Image_open X bs) as [img|e1]; simpl; [| done].
  by destruct (Image_verify X img) as [[]|e2].
Qed.

Lemma preprocess_opened (image : ndarray) :
  opened (trace (preprocess X image)) = [].
Proof.
  unfold preprocess, call, log, ret, bind, try_except.
  destruct (decide (length (shape image) = 3)) as [Hd|Hd]; simpl.
  - destruct (cv2_cvtColor X image COLOR_RGB2GRAY) as [gray|e1]; simpl; [| done].
    by destruct (cv2_medianBlur X gray 3).
  - by destruct (cv2_medianBlur X image 3).
Qed.

Lemma extract_text_opened (svc : OCRService X) (image : ndarray) :
  opened (trace (_extract_text X svc image)) = [].
Proof.
  destruct (cv2_cvtColor X image (bgr_code image)) as [bgr|e] eqn:Hc.
  - destruct (reader svc) as [r|] eqn:Hr.
    + destruct (r bgr) as [hits|e] eqn:Hh.
      * by rewrite (extract_text_hits X svc image bgr r hits Hr Hc Hh).
      * by rewrite (extract_text_engine_raises X svc image bgr r e Hr Hc Hh).
    + unfold _extract_text, readtext, bgr_code in *. rewrite Hr.
      destruct (decide (length (shape image) = 3)) as [Hd|Hd];
        unfold call, bind, try_except, log, ret, raise, trace; rewrite Hc;
        reflexivity.
  - by rewrite (extract_text_conversion_raises X svc image e Hc).
Qed.

Lemma process_image_opened (svc : OCRService X) (bs : list byte) :
  opened (trace (process_image X svc bs))
  = if is_healthy svc then [bs] else [].
Proof.
  unfold process_image. destruct (is_healthy svc); cbn [negb]; [| done].
  unfold call, bind, try_except, log, ret, trace.
  destruct (Image_open X bs) as [img|e0]; [| done].
  assert (Htail : ∀ a, ∃ tp te d0,
            preprocess X a = (tp, Returns (preprocessed X a))
            ∧ _extract_text X svc (preprocessed X a) = (te, Returns d0)
            ∧ opened tp = [] ∧ opened te = []).
  { intros a.
    destruct (extract_text_returns X svc (preprocessed X a)) as (te & d0 & Hte & _).
    pose proof (extract_text_opened svc (preprocessed X a)) as Hoe.
    pose proof (preprocess_result X a) as Hp.
    pose proof (preprocess_opened a) as Hop.
    fold (preprocessed X a) in Hp.
    destruct (preprocess X a) as [tp rp]. simpl in Hp, Hop. subst rp.
    rewrite Hte in Hoe. by exists tp, te, d0. }
  destruct (decide (mode img ≠ py "RGB")) as [Hm|Hm].
  - destruct (Image_convert X img (py "RGB")) as [img'|e1]; [| done].
    destruct (np_array X img') as [a|e2]; [| done].
    destruct (Htail a) as (tp & te & d0 & -> & -> & Hop & Hoe). simpl.
    by rewrite !opened_app, Hop, Hoe.
  - destruct (np_array X img) as [a|e2]; [| done].
    destruct (Htail a) as (tp & te & d0 & -> & -> & Hop & Hoe). simpl.
    by rewrite !opened_app, Hop, Hoe.
Qed.

End Decoder.

(** X16: PIL is only ever handed the payload of a request that declared a
    supported type, on a ready service, and that is within the size limit:
    every [Image.open] in a run of [predict] is on the bytes the upload
    returned, after those three gates. *)
Theorem predict_decodes_after_gates (X : Externals) (svc : OCRService X)
    (image : UploadFile) (c : list byte) :
  c ∈ opened (trace (predict X svc image)) →
  validate_image_content_type (content_type image) = true
  ∧ is_healthy svc = true
  ∧ read image = Returns c
  ∧ (Z.of_nat (length c) ≤ 10 * 1024 * 1024)%Z.
Proof.
  intros Hin.
  destruct (validate_image_content_type (content_type image)) eqn:Hct;
    [| rewrite (predict_rejects_type X svc image Hct) in Hin;
       by apply elem_of_nil in Hin].
  destruct (is_healthy svc) eqn:Hh;
    [| rewrite (predict_rejects_unavailable X svc image Hct Hh) in Hin;
       by apply elem_of_nil in Hin].
  destruct (read image) as [bs|e] eqn:Hr;
    [| rewrite (predict_read_raises X svc image e Hct Hh Hr) in Hin;
       by apply elem_of_nil in Hin].
  destruct (validate_file_size bs 10) eqn:Hs;
    [| rewrite (predict_rejects_size X svc image bs Hct Hh Hr Hs) in Hin;
       by apply elem_of_nil in Hin].
  assert (Hc : c = bs).
  { destruct (image_verified X bs) eqn:Hv.
    - destruct (predict_accepts X svc image bs Hct Hh Hr Hs Hv)
        as (d & o & _ & _ & _ & Hp).
      rewrite Hp in Hin. unfold trace at 1 in Hin. cbn [fst] in Hin.
      rewrite !opened_app, validate_image_opened, process_image_opened, Hh in Hin.
      simpl in Hin.
      repeat (apply elem_of_cons in Hin as [Hin|Hin]; [done |]).
      by apply elem_of_nil in Hin.
    - rewrite (predict_rejects_image X svc image bs Hct Hh Hr Hs Hv) in Hin.
      unfold trace at 1 in Hin. cbn [fst] in Hin.
      rewrite opened_app, validate_image_opened in Hin.
      simpl in Hin.
      repeat (apply elem_of_cons in Hin as [Hin|Hin]; [done |]).
      by apply elem_of_nil in Hin. }
  subst c. split_and!; try done.
  unfold validate_file_size in Hs. apply Z.leb_le in Hs. lia.
Qed.

Lemma predict_decodes_after_gates_sample :
  validate_image_content_type
    (content_type (Sample.upload "image/png" Sample.gif_bytes)) = true
  ∧ is_healthy Sample.ready = true
  ∧ read (Sample.upload "image/png" Sample.gif_bytes) = Returns Sample.gif_bytes
  ∧ (Z.of_nat (length Sample.gif_bytes) ≤ 10 * 1024 * 1024)%Z.
Proof.
  apply (predict_decodes_after_gates Sample.externals Sample.ready
           (Sample.upload "image/png" Sample.gif_bytes) Sample.gif_bytes).
  vm_compute. left.
Defined.
